(** * Arrival resolution of the Cyprus bus map (main.py)

    A shallow embedding of the schedule fallback [get_scheduled_arrivals]
    and of the [/bus_stops] handler, followed by the properties of the
    arrival lists they attach to stops.

    Conventions of the embedding:
    - Python [str] is [string], holding the UTF-8 encoding of the text:
      a character is 1 to 4 bytes, and [Py.next_char] splits one off.
      [<] on [str] compares code points, which on UTF-8 is the order of
      the bytes: [String.ltb].
    - Python [dict] with string keys is [gmap string _].
    - An instant (an aware [datetime]) is a [Z]: microseconds since the
      epoch.  Epoch seconds of the feed stay in seconds.
    - A raised exception is the [Raise] branch of [result]. *)

From stdpp Require Import gmap strings list fin_maps.
From Stdlib Require Import ZArith Ascii Sorting.Sorted Permutation Lia.

(* ================================================================== *)
(** * Part I: the program *)
(* ================================================================== *)

(** ** Exceptions *)

Inductive exn : Set :=
| ValueError | KeyError | TypeError | IndexError | OverflowError | OSError
| RequestException | DecodeError.

Inductive result (A : Type) : Type :=
| Ok (a : A)
| Raise (e : exn).
Arguments Ok {A} a.
Arguments Raise {A} e.

(** [result] is a monad: [x ← r; k] runs [k] unless [r] raised. *)
#[global] Instance result_ret : MRet result := λ A a, Ok a.
#[global] Instance result_bind : MBind result := λ A B k r,
  match r with
  | Ok a => k a
  | Raise e => Raise e
  end.

(** ** Python helpers *)

Module Py.

(** [a + " - " + b + ...], the joints of the display f-strings. *)
Definition sep : string := " - ".

(** *** The characters of a text *)

(** A byte that continues a character. *)
Definition is_continuation (b : ascii) : bool :=
  (128 <=? N_of_ascii b)%N && (N_of_ascii b <? 192)%N.

(** The number of continuation bytes that a first byte announces. *)
Definition trail_count (b : ascii) : nat :=
  if (N_of_ascii b <? 192)%N then 0
  else if (N_of_ascii b <? 224)%N then 1
  else if (N_of_ascii b <? 240)%N then 2
  else if (N_of_ascii b <? 248)%N then 3
  else 0.

Fixpoint take_trail (n : nat) (s : string) : string * string :=
  match n, s with
  | S n', String b s' =>
      if is_continuation b
      then let '(trail, rest) := take_trail n' s' in (String b trail, rest)
      else (EmptyString, s)
  | _, _ => (EmptyString, s)
  end.

(** The first character of a text and the text behind it. *)
Definition next_char (s : string) : option (string * string) :=
  match s with
  | EmptyString => None
  | String b s' =>
      let '(trail, rest) := take_trail (trail_count b) s' in
      Some (String b trail, rest)
  end.

(** The character of a code point. *)
Definition utf8_encode (cp : N) : string :=
  if (cp <? 128)%N then String (ascii_of_N cp) EmptyString
  else if (cp <? 2048)%N then
    String (ascii_of_N (192 + cp / 64))
      (String (ascii_of_N (128 + cp mod 64)) EmptyString)
  else if (cp <? 65536)%N then
    String (ascii_of_N (224 + cp / 4096))
      (String (ascii_of_N (128 + (cp / 64) mod 64))
         (String (ascii_of_N (128 + cp mod 64)) EmptyString))
  else
    String (ascii_of_N (240 + cp / 262144))
      (String (ascii_of_N (128 + (cp / 4096) mod 64))
         (String (ascii_of_N (128 + (cp / 64) mod 64))
            (String (ascii_of_N (128 + cp mod 64)) EmptyString))).

(** [s[1]] on a [str]: the character at index 1. *)
Definition str_item1 (s : string) : result string :=
  match next_char s with
  | Some (_, rest) =>
      match next_char rest with
      | Some (ch, _) => Ok ch
      | None => Raise IndexError
      end
  | None => Raise IndexError
  end.

(** [d[k].append(x)], creating [d[k] = []] first when [k] is new. *)
Definition dict_append {A} (k : string) (x : A)
    (d : gmap string (list A)) : gmap string (list A) :=
  <[k := default [] (d !! k) ++ [x]]> d.

(** Comparison of 2-tuples: the first components decide unless they
    are equal. *)
Definition tuple_ltb {A B} (eqA ltA : A → A → bool) (ltB : B → B → bool)
    (x y : A * B) : bool :=
  if eqA x.1 y.1 then ltB x.2 y.2 else ltA x.1 y.1.

(** [sorted(l)]: a stable sort that only asks [<].  An element goes in
    front of the first later element that is not smaller than it. *)
Fixpoint insort {A} (lt : A → A → bool) (x : A) (l : list A) : list A :=
  match l with
  | [] => [x]
  | y :: l' => if lt y x then y :: insort lt x l' else x :: y :: l'
  end.

Definition sorted {A} (lt : A → A → bool) (l : list A) : list A :=
  foldr (insort lt) [] l.

End Py.

(** ** Time of day strings *)

Module TimeOfDay.

Definition is_ascii_digit (c : ascii) : bool :=
  (48 <=? N_of_ascii c)%N && (N_of_ascii c <=? 57)%N.

Definition digit_val (c : ascii) : Z := Z.of_N (N_of_ascii c) - 48.

Definition in_range (lo hi : ascii) (c : ascii) : bool :=
  (N_of_ascii lo <=? N_of_ascii c)%N && (N_of_ascii c <=? N_of_ascii hi)%N.

(** *** Decimal digits

    The class [\d] of a [str] pattern, and the digits that [int] reads,
    are the characters of the category Nd.  They come in runs of ten,
    zero to nine; these are the code points of the zeros beyond ASCII
    (Unicode 14.0, the table of CPython 3.11). *)
Definition decimal_zeros : list N :=
  [1632; 1776; 1984; 2406; 2534; 2662; 2790; 2918; 3046; 3174; 3302; 3430;
   3558; 3664; 3792; 3872; 4160; 4240; 6112; 6160; 6470; 6608; 6784; 6800;
   6992; 7088; 7232; 7248; 42528; 43216; 43264; 43472; 43504; 43600; 44016;
   65296; 66720; 68912; 69734; 69872; 69942; 70096; 70384; 70736; 70864;
   71248; 71360; 71472; 71904; 72016; 72784; 73040; 73120; 92768; 92864;
   93008; 120782; 120792; 120802; 120812; 120822; 123200; 123632; 125264;
   130032]%N.

(** The digits beyond ASCII, each with its value. *)
Definition unicode_digits : list (string * Z) :=
  flat_map (λ zero, map (λ v, (Py.utf8_encode (zero + v), Z.of_N v))
                        [0; 1; 2; 3; 4; 5; 6; 7; 8; 9]%N)
           decimal_zeros.

(** The value of a character as a decimal digit, if it is one. *)
Definition decimal_value (ch : string) : option Z :=
  match ch with
  | String c EmptyString =>
      if is_ascii_digit c then Some (digit_val c) else None
  | _ => snd <$> List.find (λ p, String.eqb p.1 ch) unicode_digits
  end.

Definition is_decimal (ch : string) : bool :=
  match decimal_value ch with
  | Some _ => true
  | None => false
  end.

(** A character of the class [[lo-hi]] of two ASCII characters. *)
Definition in_class (lo hi : ascii) (ch : string) : bool :=
  match ch with
  | String c EmptyString => in_range lo hi c
  | _ => false
  end.

(** [\d]: one decimal digit, with its value. *)
Definition re_digit (s : string) : option (Z * string) :=
  match Py.next_char s with
  | Some (ch, rest) =>
      match decimal_value ch with
      | Some v => Some (v, rest)
      | None => None
      end
  | None => None
  end.

(** *** [time_pattern = re.compile(r"^\d{2}:\d{2}:\d{2}$")] *)

Fixpoint re_digits (n : nat) (s : string) : option string :=
  match n with
  | O => Some s
  | S n' =>
      match re_digit s with
      | Some (_, s') => re_digits n' s'
      | None => None
      end
  end.

Definition re_char (c : ascii) (s : string) : option string :=
  match s with
  | String c' s' => if Ascii.eqb c c' then Some s' else None
  | EmptyString => None
  end.

(** [$] without [re.MULTILINE]: the end of the string, or just before a
    newline that ends the string. *)
Definition re_dollar (s : string) : bool :=
  match s with
  | EmptyString => true
  | String c EmptyString => Ascii.eqb c "010"
  | _ => false
  end.

Definition time_pattern_match (s : string) : bool :=
  let after : option string :=
    s1 ← re_digits 2 s; s2 ← re_char ":" s1;
    s3 ← re_digits 2 s2; s4 ← re_char ":" s3;
    re_digits 2 s4 in
  match after with
  | Some rest => re_dollar rest
  | None => false
  end.

(** *** [datetime.strptime(s, "%H:%M:%S")]

    The format compiles to
    [(?P<H>2[0-3]|[0-1]\d|\d):(?P<M>[0-5]\d|\d):(?P<S>6[0-1]|[0-5]\d|\d)];
    a field tries its two-digit alternatives before the one-digit one,
    and falls back to the latter when the rest of the pattern fails.
    A two-digit alternative begins with a character of an ASCII class;
    its second character is of an ASCII class or any decimal digit.
    [int] reads the value of a field from the values of its digits. *)

Definition re_field {T} (two_ok : ascii → string → bool) (s : string)
    (k : Z → string → option T) : option T :=
  let one :=
    match re_digit s with
    | Some (v, r) => k v r
    | None => None
    end in
  match s with
  | String c1 s1 =>
      match Py.next_char s1 with
      | Some (ch2, r) =>
          if two_ok c1 ch2 then
            match k (10 * digit_val c1 + default 0 (decimal_value ch2))%Z r with
            | Some x => Some x
            | None => one
            end
          else one
      | None => one
      end
  | EmptyString => one
  end.

Definition H_two (c1 : ascii) (ch2 : string) : bool :=
  (Ascii.eqb c1 "2" && in_class "0" "3" ch2)
  || (in_range "0" "1" c1 && is_decimal ch2).
Definition M_two (c1 : ascii) (ch2 : string) : bool :=
  in_range "0" "5" c1 && is_decimal ch2.
Definition S_two (c1 : ascii) (ch2 : string) : bool :=
  (Ascii.eqb c1 "6" && in_class "0" "1" ch2)
  || (in_range "0" "5" c1 && is_decimal ch2).

Definition re_HMS (s : string) : option (Z * Z * Z * string) :=
  re_field H_two s (λ h s1,
    s2 ← re_char ":" s1;
    re_field M_two s2 (λ m s3,
      s4 ← re_char ":" s3;
      re_field S_two s4 (λ sec rest, Some (h, m, sec, rest)))).

(** [ValueError] when the regex fails, when data remains after the
    match, and when [datetime(1900, 1, 1, h, m, sec)] refuses a leap
    second. *)
Definition strptime_HMS (s : string) : result (Z * Z * Z) :=
  match re_HMS s with
  | Some (h, m, sec, rest) =>
      if String.eqb rest EmptyString && (sec <=? 59)%Z then Ok (h, m, sec)
      else Raise ValueError
  | None => Raise ValueError
  end.

(** Seconds since midnight of a parsed time. *)
Definition seconds (hms : Z * Z * Z) : Z :=
  let '(h, m, sec) := hms in (h * 3600 + m * 60 + sec)%Z.

(** *** [strftime("%H:%M:%S")] of a wall clock given in seconds *)

Definition digit_char (d : Z) : ascii := ascii_of_N (Z.to_N (48 + d)).

Definition pad2 (n : Z) : string :=
  String (digit_char (n / 10)) (String (digit_char (n mod 10)) EmptyString).

Definition strftime_HMS (wall : Z) : string :=
  pad2 ((wall / 3600) mod 24) +:+ ":" +:+ pad2 ((wall / 60) mod 60)
    +:+ ":" +:+ pad2 (wall mod 60).

End TimeOfDay.

(** ** Reference catalog *)

(** A value of [routes_dict]: a dict with exactly the keys
    ["route_number"] and ["route_name"]. *)
Record RouteInfo : Set := {
  route_number : string;
  route_name : string;
}.

(** A value of [trips_dict]: the keys ["route_id"] and ["trip_headsign"]. *)
Record TripInfo : Set := {
  trip_route_id : string;
  trip_headsign : string;
}.

(** Elements of [routes.json] and [trips.json].  The short and long names
    are read with [.get], so they may be missing. *)
Record RouteJson : Set := {
  rj_route_id : string;
  rj_route_short_name : option string;
  rj_route_long_name : option string;
}.

Record TripJson : Set := {
  tj_trip_id : string;
  tj_route_id : string;
  tj_trip_headsign : string;
}.

Definition Unknown : string := "Unknown".

(** The dict comprehensions of the module body: a later element with the
    same key replaces an earlier one. *)
Definition load_routes (routes_data : list RouteJson) : gmap string RouteInfo :=
  foldl (λ d route,
           <[rj_route_id route :=
               {| route_number := default Unknown (rj_route_short_name route);
                  route_name := default Unknown (rj_route_long_name route) |}]> d)
        ∅ routes_data.

Definition load_trips (trips_data : list TripJson) : gmap string TripInfo :=
  foldl (λ d trip,
           <[tj_trip_id trip :=
               {| trip_route_id := tj_route_id trip;
                  trip_headsign := tj_trip_headsign trip |}]> d)
        ∅ trips_data.

(** [info.get(key, dflt)] on a value of [routes_dict]; [None] stands for
    the empty dict [{}] that [routes_dict.get(route_id, {})] falls back
    to. *)
Definition info_get (info : option RouteInfo) (key dflt : string) : string :=
  match info with
  | Some i =>
      if String.eqb key "route_number" then route_number i
      else if String.eqb key "route_name" then route_name i
      else dflt
  | None => dflt
  end.

(** The display f-string
    [f"{route_number} - {route_name} - {identifier} - {arrival_time}"]. *)
Definition display (number name identifier arrival_time : string) : string :=
  number +:+ Py.sep +:+ name +:+ Py.sep +:+ identifier +:+ Py.sep +:+ arrival_time.

(** ** Schedule loader and resolver: [get_scheduled_arrivals] *)

Record Row : Set := {
  row_stop_id : string;
  row_trip_id : string;
  row_arrival_time : string;
}.

(** An element of a [stop_schedule] list once the tomorrow entries were
    added: the loader's 2-tuples, and the bare strings of line 118. *)
Inductive Entry : Set :=
| ETuple (arrival_time : string) (text : string)
| EStr (text : string).

(** [timedelta(days=1)] in microseconds. *)
Definition one_day : Z := 86400000000.

(** Order of the [stop_schedule] tuples [(arrival_time, text)] and of the
    [tomorrow_buses] tuples [(instant, text)]. *)
Definition today_ltb : string * string → string * string → bool :=
  Py.tuple_ltb String.eqb String.ltb String.ltb.

Definition tomorrow_ltb : Z * string → Z * string → bool :=
  Py.tuple_ltb Z.eqb Z.ltb String.ltb.

Section Schedule.

Variable routes_dict : gmap string RouteInfo.
Variable trips_dict : gmap string TripInfo.

(** [current_time = datetime.now(CYPRUS_TZ)]. *)
Variable now : Z.

(** The instant of [naive.replace(year, month, day).astimezone(CYPRUS_TZ)]
    for a naive time [seconds] after midnight: the wall clock of the
    process's own zone on the calendar date of [current_time]. *)
Variable today_instant : Z → Z.

Definition Schedule : Type :=
  gmap string (list (string * string)) * gmap string (list (Z * string)).

(** Lines 75 to 88: the display text of a row. *)
Definition row_route_id (row : Row) : string :=
  match trips_dict !! row_trip_id row with
  | Some trip => trip_route_id trip
  | None => Unknown
  end.

Definition row_route_info (row : Row) : RouteInfo :=
  default {| route_number := Unknown; route_name := Unknown |}
          (routes_dict !! row_route_id row).

Definition row_text (row : Row) : string :=
  let route_info := row_route_info row in
  display (route_number route_info) (route_name route_info)
          (row_trip_id row) (row_arrival_time row).

(** The body of [for row in reader] (lines 75 to 106). *)
Definition process_row (row : Row) (st : Schedule) : result Schedule :=
  let '(stop_schedule, tomorrow_buses) := st in
  let stop_id := row_stop_id row in
  let arrival_time := row_arrival_time row in
  if negb (TimeOfDay.time_pattern_match arrival_time) then Ok st
  else
    let schedule_entry := (arrival_time, row_text row) in
    hms ← TimeOfDay.strptime_HMS arrival_time;
    let arrival_datetime := today_instant (TimeOfDay.seconds hms) in
    if (now <=? arrival_datetime)%Z then
      Ok (Py.dict_append stop_id schedule_entry stop_schedule, tomorrow_buses)
    else
      Ok (stop_schedule,
          Py.dict_append stop_id (arrival_datetime + one_day, schedule_entry.2)%Z
                         tomorrow_buses).

(** One file under [try: ... except Exception]: the first row that
    raises ends the file; what earlier rows stored stays. *)
Fixpoint process_rows (rows : list Row) (st : Schedule) : Schedule :=
  match rows with
  | [] => st
  | row :: rest =>
      match process_row row st with
      | Ok st' => process_rows rest st'
      | Raise _ => st
      end
  end.

(** [for stop_times_file in STOP_TIMES_FILES]; [None] is a file that
    does not exist. *)
Definition load_stop_times (files : list (option (list Row))) : Schedule :=
  foldl (λ st file,
           match file with
           | Some rows => process_rows rows st
           | None => st
           end)
        (∅, ∅) files.

(** The body of [for stop_id in stop_schedule] (lines 113 to 120). *)
Definition finalize_stop (tomorrow_buses : gmap string (list (Z * string)))
    (stop_id : string) (arrivals : list (string * string)) : list Entry :=
  let today : list Entry :=
    map (λ p, ETuple p.1 p.2) (take 5 (Py.sorted today_ltb arrivals)) in
  let extended : list Entry :=
    match tomorrow_buses !! stop_id with
    | Some buses =>
        if decide (length today < 5) then
          today ++ map (λ entry, EStr entry.2)
                       (take (5 - length today) (Py.sorted tomorrow_ltb buses))
        else today
    | None => today
    end in
  take 5 extended.

(** [entry[1]] of line 122. *)
Definition entry_item1 (entry : Entry) : result string :=
  match entry with
  | ETuple _ text => Ok text
  | EStr text => Py.str_item1 text
  end.

Fixpoint items1 (arrivals : list Entry) : result (list string) :=
  match arrivals with
  | [] => Ok []
  | entry :: rest =>
      x ← entry_item1 entry; xs ← items1 rest; Ok (x :: xs)
  end.

Definition items1_ok (arrivals : list Entry) : Prop :=
  match items1 arrivals with Ok _ => True | Raise _ => False end.

#[local] Instance items1_ok_dec arrivals : Decision (items1_ok arrivals).
Proof. unfold items1_ok. destruct (items1 arrivals); apply _. Defined.

Definition items1_or_nil (arrivals : list Entry) : list string :=
  match items1 arrivals with Ok l => l | Raise _ => [] end.

(** The dict comprehension of line 122: it raises as soon as one
    [entry[1]] does. *)
Definition project_texts (stop_schedule : gmap string (list Entry))
    : result (gmap string (list string)) :=
  if decide (map_Forall (λ _ arrivals, items1_ok arrivals) stop_schedule)
  then Ok (items1_or_nil <$> stop_schedule)
  else Raise IndexError.

Definition get_scheduled_arrivals (files : list (option (list Row)))
    : result (gmap string (list string)) :=
  let '(stop_schedule, tomorrow_buses) := load_stop_times files in
  project_texts
    (map_imap (λ stop_id arrivals,
                 Some (finalize_stop tomorrow_buses stop_id arrivals))
              stop_schedule).

End Schedule.

(** ** Realtime resolver and aggregator: [bus_stops] *)

(** The decoded feed.  [stu_arrival = Some t] is [HasField("arrival")]
    with [arrival.time = t] (0 when the feed left the time unset). *)
Record StopTimeUpdate : Set := {
  stu_stop_id : string;
  stu_arrival : option Z;
}.

Record TripUpdate : Set := {
  tu_route_id : string;
  tu_vehicle_id : option string;
  tu_stop_time_update : list StopTimeUpdate;
}.

Record FeedEntity : Set := {
  ent_trip_update : option TripUpdate;
}.

(** Values of a stop dict of [stops.json]: strings, other hashable
    scalars, and lists (the [upcoming_buses] that requests attach). *)
Inductive pyval : Set :=
| PStr (s : string)
| PNum (n : Z)
| PList (l : list string).

#[global] Instance pyval_eq_dec : EqDecision pyval.
Proof. solve_decision. Defined.

(** [d.get(key, [])] on a dict keyed by strings: a number is no key of
    it, a list cannot be hashed. *)
Definition dict_get_or_nil (d : gmap string (list string)) (key : pyval)
    : result (list string) :=
  match key with
  | PStr s => Ok (default [] (d !! s))
  | PNum _ => Ok []
  | PList _ => Raise TypeError
  end.

(** [stop["stop_id"]]. *)
Definition stop_item_id (stop : gmap string pyval) : result pyval :=
  match stop !! "stop_id" with
  | Some v => Ok v
  | None => Raise KeyError
  end.

(** [for stop in stops_data: stop["upcoming_buses"] = table.get(stop["stop_id"], [])].
    The stops are updated in place: when a stop raises, the stops before
    it keep their new lists.  The result pairs the list as the loop
    leaves it with the outcome. *)
Fixpoint assign_upcoming (table : gmap string (list string))
    (stops : list (gmap string pyval))
    : list (gmap string pyval) * result unit :=
  match stops with
  | [] => ([], Ok tt)
  | stop :: rest =>
      match stop_item_id stop ≫= dict_get_or_nil table with
      | Ok buses =>
          let '(rest', outcome) := assign_upcoming table rest in
          (<["upcoming_buses" := PList buses]> stop :: rest', outcome)
      | Raise e => (stop :: rest, Raise e)
      end
  end.

(** Seconds of the epoch at which [datetime] starts and ends:
    0001-01-01 00:00:00 and 9999-12-31 23:59:59. *)
Definition MIN_TIMESTAMP : Z := -62135596800.
Definition MAX_TIMESTAMP : Z := 253402300799.

(** The seconds that fit the 64-bit [time_t] of the platform, and those
    among them that [gmtime] of the C library converts: beyond the latter
    the year does not fit its [int]. *)
Definition TIME_T_MIN : Z := -9223372036854775808.
Definition TIME_T_MAX : Z := 9223372036854775807.
Definition GMTIME_MIN : Z := -67768040609740800.
Definition GMTIME_MAX : Z := 67768036191676799.

Section Realtime.

Variable routes_dict : gmap string RouteInfo.

(** [CYPRUS_TZ]: seconds east of UTC in force at an epoch second. *)
Variable utcoffset : Z → Z.

Definition datetime_range (t : Z) : bool :=
  (MIN_TIMESTAMP <=? t)%Z && (t <=? MAX_TIMESTAMP)%Z.

Definition time_t_range (t : Z) : bool :=
  (TIME_T_MIN <=? t)%Z && (t <=? TIME_T_MAX)%Z.

Definition gmtime_range (t : Z) : bool :=
  (GMTIME_MIN <=? t)%Z && (t <=? GMTIME_MAX)%Z.

(** [datetime.fromtimestamp(t, CYPRUS_TZ)] as local wall-clock seconds.
    It raises [OverflowError] when [t] does not fit [time_t], [OSError]
    when [gmtime] fails, [ValueError] when the year of the UTC reading
    is not one of 1 to 9999, and [OverflowError] when adding the offset
    of the zone leaves these years. *)
Definition fromtimestamp (t : Z) : result Z :=
  if negb (time_t_range t) then Raise OverflowError
  else if negb (gmtime_range t) then Raise OSError
  else if negb (datetime_range t) then Raise ValueError
  else if negb (datetime_range (t + utcoffset t)) then Raise OverflowError
  else Ok (t + utcoffset t)%Z.

(** Line 178. *)
Definition arrival_text (stop_time : StopTimeUpdate) : result string :=
  match stu_arrival stop_time with
  | Some t => wall ← fromtimestamp t; Ok (TimeOfDay.strftime_HMS wall)
  | None => Ok "N/A"
  end.

(** [for stop_time in trip_update.stop_time_update] (lines 176 to 183). *)
Fixpoint process_stop_times (number name vehicle_id : string)
    (stop_times : list StopTimeUpdate)
    (trip_updates : gmap string (list string))
    : result (gmap string (list string)) :=
  match stop_times with
  | [] => Ok trip_updates
  | stop_time :: rest =>
      arrival_time ← arrival_text stop_time;
      process_stop_times number name vehicle_id rest
        (Py.dict_append (stu_stop_id stop_time)
                        (display number name vehicle_id arrival_time)
                        trip_updates)
  end.

(** Lines 170 to 174. *)
Definition live_vehicle_id (trip_update : TripUpdate) : string :=
  default Unknown (tu_vehicle_id trip_update).
Definition live_route_number (trip_update : TripUpdate) : string :=
  info_get (routes_dict !! tu_route_id trip_update) "route_short_name" Unknown.
Definition live_route_name (trip_update : TripUpdate) : string :=
  info_get (routes_dict !! tu_route_id trip_update) "route_long_name" Unknown.

(** [for entity in feed.entity] (lines 168 to 183). *)
Fixpoint process_entities (entities : list FeedEntity)
    (trip_updates : gmap string (list string))
    : result (gmap string (list string)) :=
  match entities with
  | [] => Ok trip_updates
  | entity :: rest =>
      match ent_trip_update entity with
      | Some trip_update =>
          trip_updates' ←
            process_stop_times (live_route_number trip_update)
              (live_route_name trip_update) (live_vehicle_id trip_update)
              (tu_stop_time_update trip_update) trip_updates;
          process_entities rest trip_updates'
      | None => process_entities rest trip_updates
      end
  end.

End Realtime.

Section Aggregator.

Variable routes_dict : gmap string RouteInfo.
Variable trips_dict : gmap string TripInfo.
Variable now : Z.
Variable today_instant : Z → Z.
Variable utcoffset : Z → Z.

(** The [try] block of [bus_stops] (lines 163 to 188).  [fetched] is
    what fetching and decoding the feed gave. *)
Definition live_block (fetched : result (list FeedEntity))
    (stops_data : list (gmap string pyval))
    : list (gmap string pyval) * result unit :=
  match
    entities ← fetched; process_entities routes_dict utcoffset entities ∅
  with
  | Ok trip_updates => assign_upcoming trip_updates stops_data
  | Raise e => (stops_data, Raise e)
  end.

(** The [except Exception] block (lines 190 to 194). *)
Definition fallback_block (files : list (option (list Row)))
    (stops_data : list (gmap string pyval))
    : list (gmap string pyval) * result unit :=
  match get_scheduled_arrivals routes_dict trips_dict now today_instant files with
  | Ok stop_schedule => assign_upcoming stop_schedule stops_data
  | Raise e => (stops_data, Raise e)
  end.

(** The handler: the global [stops_data] as the request leaves it, and
    the stops of the JSON response, or the exception that escapes. *)
Definition bus_stops (fetched : result (list FeedEntity))
    (files : list (option (list Row)))
    (stops_data : list (gmap string pyval))
    : list (gmap string pyval) * result (list (gmap string pyval)) :=
  match live_block fetched stops_data with
  | (stops1, Ok _) => (stops1, Ok stops1)
  | (stops1, Raise _) =>
      match fallback_block files stops1 with
      | (stops2, Ok _) => (stops2, Ok stops2)
      | (stops2, Raise e) => (stops2, Raise e)
      end
  end.

End Aggregator.

(** ** Vocabulary of the statements *)

(** A dict entry that grows by appends: untouched when nothing is
    appended, created on the first append. *)
Definition extend {A} (o : option (list A)) (l : list A) : option (list A) :=
  match l with
  | [] => o
  | _ => Some (default [] o ++ l)
  end.

(** A comparison that is a strict total order. *)
Record TotalCmp {A} (cmp : A → A → comparison) : Prop := {
  cmp_antisym : ∀ x y, cmp x y = CompOpp (cmp y x);
  cmp_eq : ∀ x y, cmp x y = Eq → x = y;
  cmp_trans : ∀ x y z, cmp x y = Lt → cmp y z = Lt → cmp x z = Lt;
}.

Definition lex_cmp {A B} (cmpA : A → A → comparison) (cmpB : B → B → comparison)
    (x y : A * B) : comparison :=
  match cmpA x.1 y.1 with
  | Eq => cmpB x.2 y.2
  | c => c
  end.

(** "Not after": the order a sorted list is ascending in. *)
Definition cmp_le {A} (cmp : A → A → comparison) (x y : A) : Prop :=
  cmp x y ≠ Gt.

Definition today_cmp : string * string → string * string → comparison :=
  lex_cmp String.compare String.compare.

(** The time of day an [arrival_time] string denotes, in seconds. *)
Definition time_of_day (arrival_time : string) : Z :=
  match TimeOfDay.strptime_HMS arrival_time with
  | Ok hms => TimeOfDay.seconds hms
  | Raise _ => 0
  end.

(** An [arrival_time] that passes the loader's pattern and that
    [strptime] accepts. *)
Definition valid_time (arrival_time : string) : bool :=
  TimeOfDay.time_pattern_match arrival_time
  && match TimeOfDay.strptime_HMS arrival_time with
     | Ok _ => true
     | Raise _ => false
     end.

(** A text written in ASCII. *)
Fixpoint ascii_only (s : string) : bool :=
  match s with
  | EmptyString => true
  | String b s' => (N_of_ascii b <? 128)%N && ascii_only s'
  end.

(** The order of the same-day entries: the smaller [arrival_time] string
    first, which between two times written in ASCII is the earlier time
    of day, and for one [arrival_time] the smaller text first. *)
Definition entry_le (x y : string * string) : Prop :=
  (String.compare x.1 y.1 = Lt
   ∧ (ascii_only x.1 = true → ascii_only y.1 = true →
      (time_of_day x.1 < time_of_day y.1)%Z))
  ∨ (x.1 = y.1 ∧ cmp_le String.compare x.2 y.2).

Section ScheduleRows.

Variable routes_dict : gmap string RouteInfo.
Variable trips_dict : gmap string TripInfo.
Variable now : Z.
Variable today_instant : Z → Z.

(** The rows of one file that the loader stores: those matching the
    pattern, up to the first row on which [strptime] raises. *)
Fixpoint stored_rows (rows : list Row) : list Row :=
  match rows with
  | [] => []
  | row :: rest =>
      if negb (TimeOfDay.time_pattern_match (row_arrival_time row))
      then stored_rows rest
      else
        match TimeOfDay.strptime_HMS (row_arrival_time row) with
        | Ok _ => row :: stored_rows rest
        | Raise _ => []
        end
  end.

Definition stored_files (files : list (option (list Row))) : list Row :=
  flat_map (λ file, match file with
                    | Some rows => stored_rows rows
                    | None => []
                    end) files.

Definition row_instant (row : Row) : Z :=
  today_instant (time_of_day (row_arrival_time row)).

(** The same-day and the next-day candidates of a stop, in the order of
    the source rows. *)
Definition same_day_entries (stop_id : string) (rows : list Row)
    : list (string * string) :=
  omap (λ row,
          if decide (row_stop_id row = stop_id ∧ (now ≤ row_instant row)%Z)
          then Some (row_arrival_time row, row_text routes_dict trips_dict row)
          else None) rows.

Definition next_day_entries (stop_id : string) (rows : list Row)
    : list (Z * string) :=
  omap (λ row,
          if decide (row_stop_id row = stop_id ∧ ¬ (now ≤ row_instant row)%Z)
          then Some ((row_instant row + one_day)%Z,
                     row_text routes_dict trips_dict row)
          else None) rows.

End ScheduleRows.

Section LiveUpdates.

Variable utcoffset : Z → Z.

(** The stop-time updates of the feed that name a stop, each with its
    trip update, in feed order. *)
Definition updates_for (stop_id : string) (entities : list FeedEntity)
    : list (TripUpdate * StopTimeUpdate) :=
  flat_map (λ entity,
              match ent_trip_update entity with
              | Some trip_update =>
                  omap (λ stop_time,
                          if decide (stu_stop_id stop_time = stop_id)
                          then Some (trip_update, stop_time) else None)
                       (tu_stop_time_update trip_update)
              | None => []
              end) entities.

(** What a display string of the live path ends in. *)
Definition arrival_suffix (stop_time : StopTimeUpdate) : string :=
  match stu_arrival stop_time with
  | Some t => TimeOfDay.strftime_HMS (t + utcoffset t)
  | None => "N/A"
  end.

End LiveUpdates.

(** A stop as the data model has it: its [stop_id] is a string. *)
Definition stop_has_id (stop : gmap string pyval) (stop_id : string) : Prop :=
  stop !! "stop_id" = Some (PStr stop_id).

Definition stop_wf (stop : gmap string pyval) : Prop :=
  ∃ stop_id, stop_has_id stop stop_id.

(** Two stop dicts that differ at most in ["upcoming_buses"]. *)
Definition same_static (stop stop' : gmap string pyval) : Prop :=
  ∀ key, key ≠ "upcoming_buses" → stop' !! key = stop !! key.


(** ** Loading the catalog under [try]/[except] (lines 20 to 54)

    An element of the file is [None] when it lacks a key that the dict
    comprehension subscripts ([route["route_id"]]; [trip["trip_id"]],
    [trip["route_id"]], [trip["trip_headsign"]]): the subscript raises
    [KeyError], and the [except] clause leaves the whole table empty.  The
    file itself is [Raise] when [open] or [json.load] raised. *)

Fixpoint build_routes (routes_data : list (option RouteJson))
    (d : gmap string RouteInfo) : result (gmap string RouteInfo) :=
  match routes_data with
  | [] => Ok d
  | None :: _ => Raise KeyError
  | Some route :: rest =>
      build_routes rest
        (<[rj_route_id route :=
             {| route_number := default Unknown (rj_route_short_name route);
                route_name := default Unknown (rj_route_long_name route) |}]> d)
  end.

Definition routes_dict_of_file (file : result (list (option RouteJson)))
    : gmap string RouteInfo :=
  match routes_data ← file; build_routes routes_data ∅ with
  | Ok d => d
  | Raise _ => ∅
  end.

Fixpoint build_trips (trips_data : list (option TripJson))
    (d : gmap string TripInfo) : result (gmap string TripInfo) :=
  match trips_data with
  | [] => Ok d
  | None :: _ => Raise KeyError
  | Some trip :: rest =>
      build_trips rest
        (<[tj_trip_id trip :=
             {| trip_route_id := tj_route_id trip;
                trip_headsign := tj_trip_headsign trip |}]> d)
  end.

Definition trips_dict_of_file (file : result (list (option TripJson)))
    : gmap string TripInfo :=
  match trips_data ← file; build_trips trips_data ∅ with
  | Ok d => d
  | Raise _ => ∅
  end.

(** ** [vehicle_positions] (lines 128 to 156) *)

(** A value of [routes_dict] as the dict it is, and the default dict of
    line 141. *)
Definition info_dict (info : RouteInfo) : gmap string string :=
  {[ "route_number" := route_number info; "route_name" := route_name info ]}.

Definition vehicle_default_info : gmap string string :=
  {[ "route_short_name" := Unknown; "route_long_name" := Unknown ]}.

(** [d[key]] on a dict of strings. *)
Definition dict_item (d : gmap string string) (key : string) : result string :=
  match d !! key with
  | Some v => Ok v
  | None => Raise KeyError
  end.

(** What the handler sends: the JSON body with the vehicles, or the error
    body with status 500. *)
Inductive VehiclesResponse (V : Type) : Type :=
| VehiclesBody (vehicles : list V)
| ErrorBody (details : exn) (status : Z).
Arguments VehiclesBody {V} vehicles.
Arguments ErrorBody {V} details status.

Section VehiclePositions.

(** Python's [float]: latitudes and longitudes are passed on as they
    are. *)
Variable float : Type.

Variable routes_dict : gmap string RouteInfo.

(** The vehicle message of a feed entity.  [vp_trip_route_id = Some r] is
    [HasField("trip")] with [trip.route_id = r]; [vp_vehicle_id = Some i] is
    [HasField("vehicle")] with [vehicle.id = i]. *)
Record VehiclePosition : Type := {
  vp_trip_route_id : option string;
  vp_vehicle_id : option string;
  vp_position : option (float * float);
  vp_timestamp : option Z;
}.

Record VehicleEntity : Type := {
  ent_vehicle : option VehiclePosition;
}.

(** An element of the ["vehicles"] list. *)
Record VehicleJson : Type := {
  vj_vehicle_id : string;
  vj_latitude : option float;
  vj_longitude : option float;
  vj_timestamp : option Z;
  vj_route_id : option string;
  vj_route_number : string;
  vj_route_name : string;
}.

(** Line 141: [routes_dict.get(route_id, {...})]; [route_id] is [None]
    for a vehicle without a trip, and [None] is no key of the table. *)
Definition vehicle_route_info (route_id : option string) : gmap string string :=
  match route_id ≫= (routes_dict !!.) with
  | Some info => info_dict info
  | None => vehicle_default_info
  end.

(** Lines 139 to 151: the dict of one vehicle. *)
Definition vehicle_json (vehicle : VehiclePosition) : result VehicleJson :=
  let route_id := vp_trip_route_id vehicle in
  let route_info := vehicle_route_info route_id in
  number ← dict_item route_info "route_short_name";
  name ← dict_item route_info "route_long_name";
  Ok {| vj_vehicle_id := default Unknown (vp_vehicle_id vehicle);
        vj_latitude := fst <$> vp_position vehicle;
        vj_longitude := snd <$> vp_position vehicle;
        vj_timestamp := vp_timestamp vehicle;
        vj_route_id := route_id;
        vj_route_number := number;
        vj_route_name := name |}.

(** [for entity in feed.entity] (lines 137 to 151). *)
Fixpoint collect_vehicles (entities : list VehicleEntity)
    (vehicles : list VehicleJson) : result (list VehicleJson) :=
  match entities with
  | [] => Ok vehicles
  | entity :: rest =>
      match ent_vehicle entity with
      | Some vehicle =>
          v ← vehicle_json vehicle; collect_vehicles rest (vehicles ++ [v])
      | None => collect_vehicles rest vehicles
      end
  end.

(** The handler.  Only [requests.exceptions.RequestException] is caught
    (line 154); every other exception escapes. *)
Definition vehicle_positions (fetched : result (list VehicleEntity))
    : result (VehiclesResponse VehicleJson) :=
  match entities ← fetched; collect_vehicles entities [] with
  | Ok vehicles => Ok (VehiclesBody vehicles)
  | Raise RequestException => Ok (ErrorBody RequestException 500)
  | Raise e => Raise e
  end.

End VehiclePositions.

Arguments vp_trip_route_id {float} _.
Arguments vp_vehicle_id {float} _.
Arguments vp_position {float} _.
Arguments vp_timestamp {float} _.
Arguments ent_vehicle {float} _.
(** The shapes of a time string. *)
Section HmsString.
Import TimeOfDay.

Fixpoint all_continuation (s : string) : bool :=
  match s with
  | EmptyString => true
  | String b s' => Py.is_continuation b && all_continuation s'
  end.

(** One character: a first byte and the continuation bytes it
    announces. *)
Definition whole_char (ch : string) : bool :=
  match ch with
  | EmptyString => false
  | String b trail =>
      Nat.eqb (String.length trail) (Py.trail_count b) && all_continuation trail
  end.

(** A character whose first byte opens a sequence of several bytes. *)
Definition beyond_ascii (ch : string) : bool :=
  match ch with
  | EmptyString => false
  | String b _ => (192 <=? N_of_ascii b)%N
  end.

(** A character of one byte. *)
Definition single (ch : string) : option ascii :=
  match ch with
  | String c EmptyString => Some c
  | _ => None
  end.

(** Six characters with colons between the pairs, and a rest. *)
Definition chars_text (ch1 ch2 ch3 ch4 ch5 ch6 rest : string) : string :=
  ch1 +:+ ch2 +:+ String ":" (ch3 +:+ ch4 +:+ String ":" (ch5 +:+ ch6 +:+ rest)).

(** The time string whose fields begin with the ASCII characters [a],
    [c] and [e] and end with the characters [b], [d] and [f]. *)
Definition hms_text (a : ascii) (b : string) (c : ascii) (d : string)
    (e : ascii) (f : string) : string :=
  String a (b +:+ String ":" (String c (d +:+ String ":" (String e f)))).

(** The string of a time whose six ASCII digits are given, and its
    value. *)
Definition hms_string (a b c d e f : ascii) (rest : string) : string :=
  String a (String b (String ":" (String c (String d (String ":"
    (String e (String f rest))))))).

Definition hms_value (a b c d e f : ascii) : Z * Z * Z :=
  ((10 * digit_val a + digit_val b)%Z,
   (10 * digit_val c + digit_val d)%Z,
   (10 * digit_val e + digit_val f)%Z).

End HmsString.
(** The display string of one stop-time update of the live path. *)
Definition live_text (routes_dict : gmap string RouteInfo) (utcoffset : Z → Z)
    (update : TripUpdate * StopTimeUpdate) : string :=
  display (live_route_number routes_dict update.1)
          (live_route_name routes_dict update.1)
          (live_vehicle_id update.1)
          (arrival_suffix utcoffset update.2).

(** ** Vocabulary of the further properties *)

(** An arrival time that [datetime.fromtimestamp] converts. *)
Definition convertible (utcoffset : Z → Z) (t : Z) : bool :=
  datetime_range t && datetime_range (t + utcoffset t).

(** The arrival times convert one after the other up to a time on which
    [datetime.fromtimestamp] raises [e]. *)
Definition fails_at (utcoffset : Z → Z) (arrivals : list Z) (e : exn) : Prop :=
  ∃ before t after,
    arrivals = before ++ t :: after
    ∧ Forall (λ t, convertible utcoffset t = true) before
    ∧ fromtimestamp utcoffset t = Raise e.

(** The arrival times present in the trip updates of a feed. *)
Definition feed_arrivals (entities : list FeedEntity) : list Z :=
  flat_map (λ entity,
              match ent_trip_update entity with
              | Some trip_update =>
                  omap stu_arrival (tu_stop_time_update trip_update)
              | None => []
              end) entities.

(** A stop with the list a table has for its [stop_id]. *)
Definition with_upcoming (table : gmap string (list string))
    (stop : gmap string pyval) : gmap string pyval :=
  match stop !! "stop_id" with
  | Some (PStr s) => <["upcoming_buses" := PList (default [] (table !! s))]> stop
  | _ => stop
  end.

(** The table a request serves its lists from: the live table when the
    entity loop completed, the schedule table otherwise. *)
Definition request_table (routes_dict : gmap string RouteInfo)
    (trips_dict : gmap string TripInfo) (now : Z) (today_instant : Z → Z)
    (utcoffset : Z → Z) (fetched : result (list FeedEntity))
    (files : list (option (list Row))) : gmap string (list string) :=
  match entities ← fetched; process_entities routes_dict utcoffset entities ∅ with
  | Ok trip_updates => trip_updates
  | Raise _ =>
      match get_scheduled_arrivals routes_dict trips_dict now today_instant files with
      | Ok stop_schedule => stop_schedule
      | Raise _ => ∅
      end
  end.

(** The vehicle messages of a feed, and the dict of a vehicle whose route
    the table does not know. *)
Definition feed_vehicles {float : Type} (entities : list (VehicleEntity float))
    : list (VehiclePosition float) :=
  omap ent_vehicle entities.

Definition unknown_route_json {float : Type} (vehicle : VehiclePosition float)
    : VehicleJson float :=
  {| vj_vehicle_id := default Unknown (vp_vehicle_id vehicle);
     vj_latitude := fst <$> vp_position vehicle;
     vj_longitude := snd <$> vp_position vehicle;
     vj_timestamp := vp_timestamp vehicle;
     vj_route_id := vp_trip_route_id vehicle;
     vj_route_number := Unknown;
     vj_route_name := Unknown |}.

(** A vehicle on a route that the route table has. *)
Definition on_known_route {float : Type} (routes_dict : gmap string RouteInfo)
    (vehicle : VehiclePosition float) : Prop :=
  is_Some (vp_trip_route_id vehicle ≫= (routes_dict !!.)).

(** The last element of a list that satisfies a test. *)
Definition last_with {A} (test : A → bool) (l : list A) : option A :=
  last (List.filter test l).

(** The values the comprehensions of the module body store for an element. *)
Definition route_info_of (route : RouteJson) : RouteInfo :=
  {| route_number := default Unknown (rj_route_short_name route);
     route_name := default Unknown (rj_route_long_name route) |}.

Definition trip_info_of (trip : TripJson) : TripInfo :=
  {| trip_route_id := tj_route_id trip; trip_headsign := tj_trip_headsign trip |}.

(** A stop whose [stop_id] can be a dict key: a string or a number. *)
Definition stop_hashable (stop : gmap string pyval) : Prop :=
  match stop !! "stop_id" with
  | Some (PStr _) | Some (PNum _) => True
  | _ => False
  end.

(** The resolver's list for a stop: [Ok None] when the stop is no key of
    the table, [Raise] when the computation of the table raised. *)
Definition texts_for (table : result (gmap string (list string))) (s : string)
    : result (option (list string)) :=
  d ← table; Ok (d !! s).

(** The ["upcoming_buses"] of the [i]-th stop of a response. *)
Definition response_upcoming (response : result (list (gmap string pyval)))
    (i : nat) : option pyval :=
  match response with
  | Ok stops => stops !! i ≫= (.!! "upcoming_buses")
  | Raise _ => None
  end.

(** ** Sample data *)

Module Sample.

Definition routes_dict : gmap string RouteInfo :=
  load_routes [ {| rj_route_id := "10";
                   rj_route_short_name := Some "30";
                   rj_route_long_name := Some "Limassol" |} ].

Definition trips_dict : gmap string TripInfo :=
  load_trips [ {| tj_trip_id := "T1"; tj_route_id := "10";
                  tj_trip_headsign := "Harbour" |} ].

(** A route table in which the sentinel is itself a route id. *)
Definition sentinel_routes : gmap string RouteInfo :=
  load_routes [ {| rj_route_id := "Unknown";
                   rj_route_short_name := Some "99";
                   rj_route_long_name := Some "Ghost" |} ].

(** Winter time in Nicosia. *)
Definition utcoffset (t : Z) : Z := 7200.

(** A process whose own zone is UTC, on the first day of the epoch. *)
Definition today_instant (seconds : Z) : Z := (seconds * 1000000)%Z.

Definition clock (h m : Z) : Z := ((h * 3600 + m * 60) * 1000000)%Z.

Definition row (stop trip time : string) : Row :=
  {| row_stop_id := stop; row_trip_id := trip; row_arrival_time := time |}.

Definition stop (id name : string) : gmap string pyval :=
  {[ "stop_id" := PStr id; "stop_name" := PStr name ]}.

Definition update (stop : string) (arrival : option Z) : StopTimeUpdate :=
  {| stu_stop_id := stop; stu_arrival := arrival |}.

Definition entity (route : string) (vehicle : option string)
    (updates : list StopTimeUpdate) : FeedEntity :=
  {| ent_trip_update :=
       Some {| tu_route_id := route; tu_vehicle_id := vehicle;
               tu_stop_time_update := updates |} |}.

Definition stops : list (gmap string pyval) :=
  [stop "S" "Square"; stop "Q" "Quay"].

Definition files : list (option (list Row)) :=
  [ Some [row "S" "T1" "08:00:00"; row "S" "T2" "10:00:00";
          row "Q" "T2" "10:05:00"];
    None ].

Definition feed : list FeedEntity :=
  [ entity "10" (Some "V1") [update "S" (Some 3600%Z); update "S" None] ].

Definition feed_six : list FeedEntity :=
  [ entity "10" (Some "V1")
      [update "S" (Some 0%Z); update "S" (Some 60%Z); update "S" (Some 120%Z);
       update "S" (Some 180%Z); update "S" (Some 240%Z); update "S" (Some 300%Z)] ].

(** A decoded feed with an arrival far beyond the year 9999. *)
Definition feed_far : list FeedEntity :=
  [ entity "10" (Some "V1") [update "S" (Some (10 ^ 18)%Z)] ].

Definition five_rows : list Row :=
  [row "S" "T9" "10:00:00"; row "S" "T1" "10:00:00"; row "S" "T3" "11:00:00";
   row "S" "T4" "12:00:00"; row "S" "T5" "13:00:00"; row "S" "T6" "14:00:00"].

(** Noon with the ARABIC-INDIC DIGIT TWO (U+0662) as its second
    character, and six rows of which it is the earliest. *)
Definition noon : string := "1" +:+ Py.utf8_encode 1634 +:+ ":00:00".

Definition noon_rows : list Row :=
  [row "S" "T0" noon; row "S" "T1" "13:00:00"; row "S" "T2" "14:00:00";
   row "S" "T3" "15:00:00"; row "S" "T4" "16:00:00"; row "S" "T5" "17:00:00"].

(** The table the entity loop builds for a feed, empty when it raises. *)
Definition live_table (entities : list FeedEntity) : gmap string (list string) :=
  match process_entities routes_dict utcoffset entities ∅ with
  | Ok d => d
  | Raise _ => ∅
  end.

End Sample.

Module SampleMore.
Import Sample.

(** Two ways to hold the same stored rows: with a missing file, a row
    that fails the pattern and a row on which [strptime] raises, and
    without them. *)
Definition files_with_gaps : list (option (list Row)) :=
  [ None;
    Some [row "S" "T1" "9:5:3"; row "S" "T2" "10:00:00"];
    Some [row "Q" "T2" "10:05:00"; row "Q" "T3" "25:00:00";
          row "Q" "T4" "11:00:00"] ].

Definition files_plain : list (option (list Row)) :=
  [ Some [row "S" "T2" "10:00:00"; row "Q" "T2" "10:05:00"] ].

(** Files of which the loader stores nothing. *)
Definition files_skipped : list (option (list Row)) :=
  [ None; Some [row "S" "T1" "9:5:3"] ].

(** A stop without a ["stop_id"] key, and a stop whose id is a number. *)
Definition nameless_stop : gmap string pyval :=
  {[ "stop_name" := PStr "Nameless" ]}.

Definition numbered_stop : gmap string pyval :=
  {[ "stop_id" := PNum 7; "stop_name" := PStr "Seven" ]}.

(** Digits beyond ASCII: ARABIC-INDIC DIGIT ONE, TWO, THREE and NINE
    (U+0661, U+0662, U+0663, U+0669) and MATHEMATICAL DOUBLE-STRUCK DIGIT
    ZERO (U+1D7D8). *)
Definition arabic_one : string := Py.utf8_encode 1633.
Definition arabic_two : string := Py.utf8_encode 1634.
Definition arabic_three : string := Py.utf8_encode 1635.
Definition arabic_nine : string := Py.utf8_encode 1641.
Definition struck_zero : string := Py.utf8_encode 120792.

End SampleMore.

(* ================================================================== *)
(** * Part II: properties *)
(* ================================================================== *)

(** ** The [result] monad *)

Lemma result_bind_Ok {A B} (k : A → result B) (r : result A) (b : B) :
  r ≫= k = Ok b ↔ ∃ a, r = Ok a ∧ k a = Ok b.
Proof.
  destruct r as [a|e]; simpl.
  - split; [eauto | intros (a' & [= ->] & ?); done].
  - split; [done | intros (a' & [=] & ?)].
Qed.

(** ** Growing dict entries *)

Lemma extend_nil {A} (o : option (list A)) : extend o [] = o.
Proof. done. Qed.

Lemma extend_app {A} (o : option (list A)) l1 l2 :
  extend (extend o l1) l2 = extend o (l1 ++ l2).
Proof.
  destruct l1 as [|x l1]; [done|].
  destruct l2 as [|y l2]; simpl.
  - by rewrite app_nil_r.
  - by rewrite <- app_assoc.
Qed.

Lemma extend_default {A} (o : option (list A)) l :
  default [] (extend o l) = default [] o ++ l.
Proof. destruct l; simpl; [by rewrite app_nil_r | done]. Qed.

Lemma extend_None_nil {A} (l : list A) : extend None l = None ↔ l = [].
Proof. destruct l; simpl; split; congruence. Qed.

Lemma dict_append_lookup {A} (k s : string) (x : A) (d : gmap string (list A)) :
  Py.dict_append k x d !! s = extend (d !! s) (if decide (k = s) then [x] else []).
Proof.
  unfold Py.dict_append. rewrite lookup_insert.
  destruct (decide (k = s)) as [->|]; done.
Qed.

(** ** Orders *)

Lemma ascii_compare_Lt_trans (a b c : ascii) :
  Ascii.compare a b = Lt → Ascii.compare b c = Lt → Ascii.compare a c = Lt.
Proof.
  unfold Ascii.compare. rewrite !N.compare_lt_iff. lia.
Qed.

Lemma ascii_compare_Eq (a b : ascii) : Ascii.compare a b = Eq → a = b.
Proof.
  unfold Ascii.compare. rewrite N.compare_eq_iff. intros H.
  rewrite <- (ascii_N_embedding a), <- (ascii_N_embedding b). by rewrite H.
Qed.

Lemma string_compare_Lt_trans (x y z : string) :
  String.compare x y = Lt → String.compare y z = Lt → String.compare x z = Lt.
Proof.
  revert y z. induction x as [|a x IH]; intros [|b y] [|c z]; simpl; try done.
  destruct (Ascii.compare a b) eqn:Hab; try done.
  - apply ascii_compare_Eq in Hab as ->.
    destruct (Ascii.compare b c) eqn:Hbc; try done. apply IH.
  - intros _. destruct (Ascii.compare b c) eqn:Hbc; try done.
    + apply ascii_compare_Eq in Hbc as <-. by rewrite Hab.
    + by rewrite (ascii_compare_Lt_trans _ _ _ Hab Hbc).
Qed.

Lemma string_TotalCmp : TotalCmp String.compare.
Proof.
  split.
  - apply String.compare_antisym.
  - apply String.compare_eq_iff.
  - apply string_compare_Lt_trans.
Qed.

Lemma cmp_refl {A} (cmp : A → A → comparison) (x : A) :
  TotalCmp cmp → cmp x x = Eq.
Proof.
  intros [Hanti _ _]. specialize (Hanti x x). destruct (cmp x x); done.
Qed.

Lemma lex_TotalCmp {A B} (cmpA : A → A → comparison) (cmpB : B → B → comparison) :
  TotalCmp cmpA → TotalCmp cmpB → TotalCmp (lex_cmp cmpA cmpB).
Proof.
  intros HA HB. split.
  - intros [a b] [a' b']. unfold lex_cmp; simpl.
    rewrite (cmp_antisym _ HA a a'), (cmp_antisym _ HB b b').
    by destruct (cmpA a' a).
  - intros [a b] [a' b']. unfold lex_cmp; simpl.
    destruct (cmpA a a') eqn:Ha; try done.
    intros Hb. by rewrite (cmp_eq _ HA _ _ Ha), (cmp_eq _ HB _ _ Hb).
  - intros [a b] [a' b'] [a'' b'']. unfold lex_cmp; simpl.
    destruct (cmpA a a') eqn:H1; try done.
    + apply (cmp_eq _ HA) in H1 as ->.
      destruct (cmpA a' a'') eqn:H2; try done. apply (cmp_trans _ HB).
    + intros _. destruct (cmpA a' a'') eqn:H2; try done.
      * apply (cmp_eq _ HA) in H2 as <-. by rewrite H1.
      * by rewrite (cmp_trans _ HA _ _ _ H1 H2).
Qed.

Lemma cmp_le_trans {A} (cmp : A → A → comparison) :
  TotalCmp cmp → ∀ x y z, cmp_le cmp x y → cmp_le cmp y z → cmp_le cmp x z.
Proof.
  intros H x y z. unfold cmp_le.
  destruct (cmp x y) eqn:H1; try done; intros _.
  - by apply (cmp_eq _ H) in H1 as ->.
  - destruct (cmp y z) eqn:H2; try done; intros _.
    + apply (cmp_eq _ H) in H2 as <-. by rewrite H1.
    + by rewrite (cmp_trans _ H _ _ _ H1 H2).
Qed.

Lemma today_TotalCmp : TotalCmp today_cmp.
Proof. apply lex_TotalCmp; apply string_TotalCmp. Qed.

(** [<] on the schedule tuples is the lexicographic order. *)
Lemma today_ltb_cmp (x y : string * string) :
  today_ltb x y = true ↔ today_cmp x y = Lt.
Proof.
  destruct x as [a b], y as [a' b'].
  unfold today_ltb, today_cmp, Py.tuple_ltb, lex_cmp, String.ltb; simpl.
  destruct (String.eqb_spec a a') as [->|Hne].
  - rewrite (cmp_refl _ a' string_TotalCmp). by destruct (String.compare b b').
  - destruct (String.compare a a') eqn:Ha; try done.
    by apply String.compare_eq_iff in Ha.
Qed.

(** ** [sorted] *)

Section Sorted.

Context {A : Type} (lt : A → A → bool) (cmp : A → A → comparison).
Hypothesis cmp_total : TotalCmp cmp.
Hypothesis lt_cmp : ∀ x y, lt x y = true ↔ cmp x y = Lt.

Lemma insort_perm (x : A) (l : list A) : Permutation (Py.insort lt x l) (x :: l).
Proof.
  induction l as [|y l IH]; simpl; [done|].
  destruct (lt y x); [|done].
  rewrite IH. apply perm_swap.
Qed.

Lemma sorted_perm (l : list A) : Permutation (Py.sorted lt l) l.
Proof.
  induction l as [|x l IH]; simpl; [done|].
  unfold Py.sorted in *. simpl. by rewrite insort_perm, IH.
Qed.

Lemma sorted_length (l : list A) : length (Py.sorted lt l) = length l.
Proof. apply Permutation_length, sorted_perm. Qed.

Lemma insort_sorted (x : A) (l : list A) :
  StronglySorted (cmp_le cmp) l → StronglySorted (cmp_le cmp) (Py.insort lt x l).
Proof.
  induction 1 as [|y l Hl IH Hy]; simpl.
  - repeat constructor.
  - destruct (lt y x) eqn:Hyx.
    + constructor; [done|].
      rewrite insort_perm. constructor; [|done].
      apply lt_cmp in Hyx. unfold cmp_le. by rewrite Hyx.
    + assert (cmp_le cmp x y) as Hxy.
      { unfold cmp_le. rewrite (cmp_antisym _ cmp_total).
        destruct (cmp y x) eqn:Hc; try done.
        apply lt_cmp in Hc. congruence. }
      constructor; [by constructor|].
      constructor; [done|].
      eapply Forall_impl; [exact Hy|].
      intros z Hz. by eapply cmp_le_trans.
Qed.

Lemma sorted_sorted (l : list A) : StronglySorted (cmp_le cmp) (Py.sorted lt l).
Proof.
  induction l as [|x l IH]; [constructor|].
  apply insort_sorted, IH.
Qed.

End Sorted.

(** ** Characters and decimal digits *)

Section Characters.
Import TimeOfDay.

Lemma append_cons (c : ascii) (s t : string) :
  String c s +:+ t = String c (s +:+ t).
Proof. done. Qed.

Lemma append_nil (t : string) : EmptyString +:+ t = t.
Proof. done. Qed.

Lemma append_nonempty (s t : string) :
  s ≠ EmptyString → String.eqb (s +:+ t) EmptyString = false.
Proof. by destruct s. Qed.

Lemma ascii_only_app (s t : string) :
  ascii_only (s +:+ t) = ascii_only s && ascii_only t.
Proof.
  induction s as [|b s IH]; [done|].
  rewrite append_cons. cbn [ascii_only]. by rewrite IH, andb_assoc.
Qed.

Lemma take_trail_app (trail rest : string) :
  all_continuation trail = true →
  Py.take_trail (String.length trail) (trail +:+ rest) = (trail, rest).
Proof.
  induction trail as [|b trail IH]; cbn [all_continuation String.length].
  - intros _. rewrite append_nil. by destruct rest.
  - rewrite andb_true_iff. intros [Hb Htrail]. rewrite append_cons.
    cbn [Py.take_trail]. by rewrite Hb, IH.
Qed.

Lemma next_char_whole (ch rest : string) :
  whole_char ch = true → Py.next_char (ch +:+ rest) = Some (ch, rest).
Proof.
  destruct ch as [|b trail]; [done|]. cbn [whole_char].
  rewrite andb_true_iff, Nat.eqb_eq. intros [Hlen Htrail].
  rewrite append_cons. cbn [Py.next_char]. by rewrite <- Hlen, take_trail_app.
Qed.

Lemma take_trail_spec (n : nat) (s trail rest : string) :
  Py.take_trail n s = (trail, rest) → s = trail +:+ rest.
Proof.
  revert s trail. induction n as [|n IH]; intros s trail; cbn [Py.take_trail].
  - destruct s; by intros [= <- <-].
  - destruct s as [|b s]; [by intros [= <- <-]|].
    destruct (Py.is_continuation b); [|by intros [= <- <-]].
    destruct (Py.take_trail n s) as [trail' rest'] eqn:E.
    intros [= <- <-]. rewrite append_cons. f_equal. by apply IH.
Qed.

Lemma next_char_Some (s ch rest : string) :
  Py.next_char s = Some (ch, rest) → s = ch +:+ rest ∧ ch ≠ EmptyString.
Proof.
  destruct s as [|b s]; [done|]. cbn [Py.next_char].
  destruct (Py.take_trail (Py.trail_count b) s) as [trail rest'] eqn:E.
  intros [= <- <-]. rewrite append_cons.
  split; [|done]. f_equal. by eapply take_trail_spec.
Qed.

(** The digits of the table are whole characters of several bytes. *)
Lemma unicode_digits_chars :
  Forall (λ p, whole_char p.1 = true ∧ beyond_ascii p.1 = true) unicode_digits.
Proof.
  apply Forall_forall. intros p Hp.
  assert (forallb (λ p, whole_char p.1 && beyond_ascii p.1) unicode_digits = true)
    as Hall by (vm_compute; reflexivity).
  rewrite forallb_forall in Hall. apply andb_true_iff, Hall.
  by apply list_elem_of_In.
Qed.

Lemma is_ascii_digit_val (c : ascii) :
  is_ascii_digit c = true → (0 ≤ digit_val c ≤ 9)%Z.
Proof.
  unfold is_ascii_digit, digit_val. rewrite andb_true_iff, !N.leb_le. lia.
Qed.

Lemma is_ascii_digit_not_colon (c : ascii) :
  is_ascii_digit c = true → Ascii.eqb ":" c = false.
Proof.
  intros H. destruct (Ascii.eqb_spec ":" c) as [<-|]; [|done].
  by vm_compute in H.
Qed.

Lemma is_ascii_digit_whole (c : ascii) :
  is_ascii_digit c = true → whole_char (String c EmptyString) = true.
Proof.
  unfold is_ascii_digit, whole_char, Py.trail_count.
  rewrite andb_true_iff, !N.leb_le. intros [_ H].
  destruct (N.ltb_spec (N_of_ascii c) 192); [done|lia].
Qed.

Lemma decimal_value_table (ch : string) (v : Z) :
  snd <$> List.find (λ p, String.eqb p.1 ch) unicode_digits = Some v →
  whole_char ch = true ∧ beyond_ascii ch = true.
Proof.
  destruct (List.find _ _) as [p|] eqn:Hfind; [|done]. intros _.
  apply find_some in Hfind as [Hin Heq].
  apply String.eqb_eq in Heq as <-.
  pose proof unicode_digits_chars as Hall. rewrite Forall_forall in Hall.
  by apply Hall, list_elem_of_In.
Qed.

(** A decimal digit is an ASCII digit or a character of the table. *)
Lemma decimal_value_cases (ch : string) (v : Z) :
  decimal_value ch = Some v →
  (∃ c, ch = String c EmptyString ∧ is_ascii_digit c = true ∧ v = digit_val c)
  ∨ (whole_char ch = true ∧ beyond_ascii ch = true).
Proof.
  destruct ch as [|c [|c' r]]; unfold decimal_value.
  - intros H. right. by eapply decimal_value_table.
  - destruct (is_ascii_digit c) eqn:Hc; [|done]. intros [= <-]. left. eauto.
  - intros H. right. by eapply decimal_value_table.
Qed.

Lemma decimal_value_whole (ch : string) (v : Z) :
  decimal_value ch = Some v → whole_char ch = true.
Proof.
  intros [(c & -> & Hc & _)|[H _]]%decimal_value_cases; [|done].
  by apply is_ascii_digit_whole.
Qed.

Lemma decimal_value_nonempty (ch : string) (v : Z) :
  decimal_value ch = Some v → ch ≠ EmptyString.
Proof. intros H%decimal_value_whole. by destruct ch. Qed.

Lemma decimal_value_ascii (ch : string) (v : Z) :
  decimal_value ch = Some v → ascii_only ch = true →
  ∃ c, ch = String c EmptyString ∧ is_ascii_digit c = true ∧ v = digit_val c.
Proof.
  intros [H|[_ Hb]]%decimal_value_cases Hascii; [done|].
  destruct ch as [|b ch]; [done|]. cbn [beyond_ascii ascii_only] in *.
  apply andb_true_iff in Hascii as [Hlt _].
  apply N.leb_le in Hb. apply N.ltb_lt in Hlt. lia.
Qed.

Lemma decimal_value_single (c : ascii) :
  is_ascii_digit c = true →
  decimal_value (String c EmptyString) = Some (digit_val c).
Proof. intros H. unfold decimal_value. by rewrite H. Qed.

Lemma re_char_Some c s r : re_char c s = Some r → s = String c r.
Proof.
  destruct s as [|c' s]; simpl; [done|].
  destruct (Ascii.eqb_spec c c') as [->|]; congruence.
Qed.

Lemma decimal_value_not_colon (ch r : string) (v : Z) :
  decimal_value ch = Some v → re_char ":" (ch +:+ r) = None.
Proof.
  intros [(c & -> & Hc & _)|[_ Hb]]%decimal_value_cases.
  - rewrite append_cons. cbn [re_char]. by rewrite is_ascii_digit_not_colon.
  - destruct ch as [|b ch]; [done|]. rewrite append_cons. cbn [re_char].
    destruct (Ascii.eqb_spec ":" b) as [<-|]; [|done]. by vm_compute in Hb.
Qed.

Lemma re_digit_app (ch r : string) (v : Z) :
  decimal_value ch = Some v → re_digit (ch +:+ r) = Some (v, r).
Proof.
  intros H. unfold re_digit.
  by rewrite next_char_whole, H by (by eapply decimal_value_whole).
Qed.

Lemma re_digit_Some (s r : string) (v : Z) :
  re_digit s = Some (v, r) → ∃ ch, s = ch +:+ r ∧ decimal_value ch = Some v.
Proof.
  unfold re_digit.
  destruct (Py.next_char s) as [[ch rest]|] eqn:E; [|done].
  destruct (decimal_value ch) as [v'|] eqn:Hv; [|done].
  intros [= <- <-]. apply next_char_Some in E as [-> _]. eauto.
Qed.

Lemma re_digits2_Some (s r : string) :
  re_digits 2 s = Some r →
  ∃ ch1 ch2, s = ch1 +:+ ch2 +:+ r
             ∧ is_decimal ch1 = true ∧ is_decimal ch2 = true.
Proof.
  cbn [re_digits].
  destruct (re_digit s) as [[v1 s1]|] eqn:E1; [|done].
  destruct (re_digit s1) as [[v2 s2]|] eqn:E2; [|done].
  intros [= <-].
  apply re_digit_Some in E1 as (ch1 & -> & H1).
  apply re_digit_Some in E2 as (ch2 & -> & H2).
  exists ch1, ch2. unfold is_decimal. by rewrite H1, H2.
Qed.

Lemma re_digits2_app (ch1 ch2 r : string) :
  is_decimal ch1 = true → is_decimal ch2 = true →
  re_digits 2 (ch1 +:+ ch2 +:+ r) = Some r.
Proof.
  unfold is_decimal.
  destruct (decimal_value ch1) as [v1|] eqn:H1; [|done].
  destruct (decimal_value ch2) as [v2|] eqn:H2; [|done]. intros _ _.
  cbn [re_digits]. by rewrite (re_digit_app _ _ _ H1), (re_digit_app _ _ _ H2).
Qed.

End Characters.

(** ** Valid times and their order *)

Section ValidTimes.
Import TimeOfDay.

Lemma time_pattern_match_chars (ch1 ch2 ch3 ch4 ch5 ch6 rest : string) :
  Forall (λ ch, is_decimal ch = true) [ch1; ch2; ch3; ch4; ch5; ch6] →
  time_pattern_match (chars_text ch1 ch2 ch3 ch4 ch5 ch6 rest) = re_dollar rest.
Proof.
  intros H. repeat (apply Forall_cons in H as [? H]).
  unfold time_pattern_match, chars_text.
  rewrite re_digits2_app by done. cbn [mbind option_bind re_char].
  rewrite Ascii.eqb_refl. cbn [mbind option_bind].
  rewrite re_digits2_app by done. cbn [mbind option_bind re_char].
  rewrite Ascii.eqb_refl. cbn [mbind option_bind].
  by rewrite re_digits2_app by done.
Qed.

Lemma time_pattern_match_inv (s : string) :
  time_pattern_match s = true →
  ∃ ch1 ch2 ch3 ch4 ch5 ch6 rest,
    s = chars_text ch1 ch2 ch3 ch4 ch5 ch6 rest
    ∧ Forall (λ ch, is_decimal ch = true) [ch1; ch2; ch3; ch4; ch5; ch6]
    ∧ re_dollar rest = true.
Proof.
  unfold time_pattern_match. intros H.
  destruct (re_digits 2 s) as [s1|] eqn:E1; [|done].
  apply re_digits2_Some in E1 as (ch1 & ch2 & -> & H1 & H2).
  cbn -[re_digits re_char re_dollar] in H.
  destruct (re_char ":" s1) as [s2|] eqn:E2; [|done].
  apply re_char_Some in E2 as ->.
  cbn -[re_digits re_char re_dollar] in H.
  destruct (re_digits 2 s2) as [s3|] eqn:E3; [|done].
  apply re_digits2_Some in E3 as (ch3 & ch4 & -> & H3 & H4).
  cbn -[re_digits re_char re_dollar] in H.
  destruct (re_char ":" s3) as [s4|] eqn:E4; [|done].
  apply re_char_Some in E4 as ->.
  cbn -[re_digits re_char re_dollar] in H.
  destruct (re_digits 2 s4) as [rest|] eqn:E5; [|done].
  apply re_digits2_Some in E5 as (ch5 & ch6 & -> & H5 & H6).
  exists ch1, ch2, ch3, ch4, ch5, ch6, rest. repeat split; [|done].
  repeat constructor; done.
Qed.

(** The two-digit alternatives begin with an ASCII digit. *)
Lemma H_two_ascii (c : ascii) (ch : string) :
  is_ascii_digit c = false → H_two c ch = false.
Proof.
  intros Hc. unfold H_two.
  destruct (Ascii.eqb_spec c "2") as [->|]; [by vm_compute in Hc|].
  destruct (in_range "0" "1" c) eqn:Hr; [|done].
  unfold in_range, is_ascii_digit in *.
  change (N_of_ascii "0") with 48%N in Hr. change (N_of_ascii "1") with 49%N in Hr.
  apply andb_true_iff in Hr as [?%N.leb_le ?%N.leb_le].
  apply andb_false_iff in Hc as [?%N.leb_gt|?%N.leb_gt]; lia.
Qed.

Lemma M_two_ascii (c : ascii) (ch : string) :
  is_ascii_digit c = false → M_two c ch = false.
Proof.
  intros Hc. unfold M_two.
  destruct (in_range "0" "5" c) eqn:Hr; [|done].
  unfold in_range, is_ascii_digit in *.
  change (N_of_ascii "0") with 48%N in Hr. change (N_of_ascii "5") with 53%N in Hr.
  apply andb_true_iff in Hr as [?%N.leb_le ?%N.leb_le].
  apply andb_false_iff in Hc as [?%N.leb_gt|?%N.leb_gt]; lia.
Qed.

Lemma S_two_ascii (c : ascii) (ch : string) :
  is_ascii_digit c = false → S_two c ch = false.
Proof.
  intros Hc. unfold S_two.
  destruct (Ascii.eqb_spec c "6") as [->|]; [by vm_compute in Hc|].
  fold (M_two c ch). by rewrite M_two_ascii.
Qed.

(** A field of two digits that a colon follows: only the two-digit
    alternatives can match. *)
Lemma re_field_colon {T} (two_ok : ascii → string → bool) (ch1 ch2 r : string)
    (v1 v2 : Z) (k : Z → string → option T) :
  (∀ c x, is_ascii_digit c = false → two_ok c x = false) →
  decimal_value ch1 = Some v1 → decimal_value ch2 = Some v2 →
  re_field two_ok (ch1 +:+ ch2 +:+ r) (λ v s1, s2 ← re_char ":" s1; k v s2)
  = match single ch1 with
    | Some c1 =>
        if two_ok c1 ch2
        then s2 ← re_char ":" r; k (10 * digit_val c1 + v2)%Z s2
        else None
    | None => None
    end.
Proof.
  intros Htwo H1 H2. unfold re_field.
  rewrite (re_digit_app _ _ _ H1), (decimal_value_not_colon _ _ _ H2).
  cbn [mbind option_bind].
  destruct ch1 as [|c1 trail]; [by apply decimal_value_nonempty in H1|].
  rewrite append_cons.
  destruct (is_ascii_digit c1) eqn:Hc1.
  - apply decimal_value_cases in H1 as [(c & [= <- ->] & _)|[_ Hb]].
    + rewrite append_nil, next_char_whole by (by eapply decimal_value_whole).
      cbn [single]. destruct (two_ok c1 ch2); [|done]. rewrite H2. cbn [from_option id].
      by destruct (s2 ← re_char ":" r; k (10 * digit_val c1 + v2)%Z s2).
    + cbn [beyond_ascii] in Hb. unfold is_ascii_digit in Hc1.
      apply andb_true_iff in Hc1 as [_ ?%N.leb_le]. apply N.leb_le in Hb. lia.
  - assert (match single (String c1 trail) with
            | Some c1 =>
                if two_ok c1 ch2
                then s2 ← re_char ":" r; k (10 * digit_val c1 + v2)%Z s2
                else None
            | None => None
            end = None) as ->.
    { unfold single. destruct trail; [|done]. by rewrite Htwo. }
    destruct (Py.next_char (trail +:+ ch2 +:+ r)) as [[x r']|]; [|done].
    by rewrite Htwo.
Qed.

(** The last field: when no two-digit alternative matches, its first
    digit is the field and the second stays behind. *)
Lemma re_field_last {T} (ch1 ch2 rest : string) (v1 v2 : Z)
    (k : Z → string → T) :
  decimal_value ch1 = Some v1 → decimal_value ch2 = Some v2 →
  re_field S_two (ch1 +:+ ch2 +:+ rest) (λ sec r, Some (k sec r))
  = match single ch1 with
    | Some c1 =>
        if S_two c1 ch2 then Some (k (10 * digit_val c1 + v2)%Z rest)
        else Some (k v1 (ch2 +:+ rest))
    | None => Some (k v1 (ch2 +:+ rest))
    end.
Proof.
  intros H1 H2. unfold re_field. rewrite (re_digit_app _ _ _ H1).
  destruct ch1 as [|c1 trail]; [by apply decimal_value_nonempty in H1|].
  rewrite append_cons.
  destruct (is_ascii_digit c1) eqn:Hc1.
  - apply decimal_value_cases in H1 as [(c & [= <- ->] & _)|[_ Hb]].
    + rewrite append_nil, next_char_whole by (by eapply decimal_value_whole).
      cbn [single]. destruct (S_two c1 ch2); [|done]. rewrite H2. by cbn [from_option id].
    + cbn [beyond_ascii] in Hb. unfold is_ascii_digit in Hc1.
      apply andb_true_iff in Hc1 as [_ ?%N.leb_le]. apply N.leb_le in Hb. lia.
  - assert (match single (String c1 trail) with
            | Some c1 =>
                if S_two c1 ch2 then Some (k (10 * digit_val c1 + v2)%Z rest)
                else Some (k v1 (ch2 +:+ rest))
            | None => Some (k v1 (ch2 +:+ rest))
            end = Some (k v1 (ch2 +:+ rest))) as ->.
    { unfold single. destruct trail; [|done]. by rewrite S_two_ascii. }
    destruct (Py.next_char (trail +:+ ch2 +:+ rest)) as [[x r']|]; [|done].
    by rewrite S_two_ascii.
Qed.

(** [strptime] on six digits with colons between the pairs. *)
Lemma strptime_chars (ch1 ch2 ch3 ch4 ch5 ch6 rest : string)
    (v1 v2 v3 v4 v5 v6 : Z) :
  decimal_value ch1 = Some v1 → decimal_value ch2 = Some v2 →
  decimal_value ch3 = Some v3 → decimal_value ch4 = Some v4 →
  decimal_value ch5 = Some v5 → decimal_value ch6 = Some v6 →
  strptime_HMS (chars_text ch1 ch2 ch3 ch4 ch5 ch6 rest)
  = match single ch1, single ch3, single ch5 with
    | Some a, Some c, Some e =>
        if H_two a ch2 && M_two c ch4 && S_two e ch6 && String.eqb rest EmptyString
           && (10 * digit_val e + v6 <=? 59)%Z
        then Ok ((10 * digit_val a + v2)%Z, (10 * digit_val c + v4)%Z,
                 (10 * digit_val e + v6)%Z)
        else Raise ValueError
    | _, _, _ => Raise ValueError
    end.
Proof.
  intros H1 H2 H3 H4 H5 H6. unfold strptime_HMS, re_HMS, chars_text.
  rewrite (re_field_colon H_two ch1 ch2 _ v1 v2) by (done || apply H_two_ascii).
  destruct (single ch1) as [a|]; [|done].
  destruct (H_two a ch2); [|by destruct (single ch3), (single ch5)].
  cbn [re_char]. rewrite Ascii.eqb_refl. cbn [mbind option_bind].
  rewrite (re_field_colon M_two ch3 ch4 _ v3 v4) by (done || apply M_two_ascii).
  destruct (single ch3) as [c|]; [|done].
  destruct (M_two c ch4); [|by destruct (single ch5)].
  cbn [re_char]. rewrite Ascii.eqb_refl. cbn [mbind option_bind].
  rewrite (re_field_last ch5 ch6 rest v5 v6 (λ sec r, (_, _, sec, r))) by done.
  assert (String.eqb (ch6 +:+ rest) EmptyString = false) as Hrest
    by (by eapply append_nonempty, decimal_value_nonempty).
  destruct (single ch5) as [e|]; [|by rewrite Hrest].
  destruct (S_two e ch6); cbn [andb]; [|by rewrite Hrest].
  destruct (String.eqb rest EmptyString); [|done]. cbn [andb].
  by destruct (_ <=? 59)%Z.
Qed.

(** The same on six ASCII digits. *)
Lemma strptime_hms_string (a b c d e f : ascii) (rest : string) :
  Forall (λ x, is_ascii_digit x = true) [a; b; c; d; e; f] →
  strptime_HMS (hms_string a b c d e f rest)
  = if H_two a (String b EmptyString) && M_two c (String d EmptyString)
       && S_two e (String f EmptyString) && String.eqb rest EmptyString
       && (10 * digit_val e + digit_val f <=? 59)%Z
    then Ok (hms_value a b c d e f)
    else Raise ValueError.
Proof.
  intros H. repeat (apply Forall_cons in H as [?%decimal_value_single H]).
  change (hms_string a b c d e f rest)
    with (chars_text (String a EmptyString) (String b EmptyString)
            (String c EmptyString) (String d EmptyString)
            (String e EmptyString) (String f EmptyString) rest).
  by erewrite strptime_chars.
Qed.

Lemma two_digit_bounds (a b : ascii) :
  is_ascii_digit b = true →
  (H_two a (String b EmptyString) = true → (10 * digit_val a + digit_val b ≤ 23)%Z)
  ∧ (M_two a (String b EmptyString) = true → (10 * digit_val a + digit_val b ≤ 59)%Z).
Proof.
  intros Hb. pose proof (is_ascii_digit_val b Hb).
  unfold H_two, M_two, in_class, in_range, digit_val in *.
  change (N_of_ascii "0") with 48%N. change (N_of_ascii "1") with 49%N.
  change (N_of_ascii "3") with 51%N. change (N_of_ascii "5") with 53%N.
  split.
  - rewrite orb_true_iff, !andb_true_iff, !N.leb_le.
    intros [[Ha ?]|?]; [|lia].
    apply Ascii.eqb_eq in Ha as ->. change (N_of_ascii "2") with 50%N. lia.
  - rewrite !andb_true_iff, !N.leb_le. lia.
Qed.

(** A valid time written in ASCII is [HH:MM:SS] with six ASCII digits. *)
Lemma valid_time_shape (s : string) :
  valid_time s = true → ascii_only s = true →
  ∃ a b c d e f,
    s = hms_string a b c d e f EmptyString
    ∧ Forall (λ x, is_ascii_digit x = true) [a; b; c; d; e; f]
    ∧ time_of_day s = seconds (hms_value a b c d e f)
    ∧ (10 * digit_val c + digit_val d ≤ 59)%Z
    ∧ (10 * digit_val e + digit_val f ≤ 59)%Z.
Proof.
  unfold valid_time. rewrite andb_true_iff. intros [Hpat Hstrp] Hascii.
  apply time_pattern_match_inv in Hpat
    as (ch1 & ch2 & ch3 & ch4 & ch5 & ch6 & rest & -> & Hd & _).
  unfold chars_text in Hascii.
  repeat (rewrite ?ascii_only_app, ?andb_true_iff in Hascii; cbn [ascii_only] in Hascii).
  destruct Hascii as (A1 & A2 & _ & A3 & A4 & _ & A5 & A6 & _).
  repeat (apply Forall_cons in Hd as [? Hd]).
  unfold is_decimal in *.
  repeat match goal with
         | H : match decimal_value ?ch with _ => _ end = true |- _ =>
             destruct (decimal_value ch) eqn:?; [clear H|discriminate H]
         end.
  repeat match goal with
         | H : decimal_value ?ch = Some _, A : ascii_only ?ch = true |- _ =>
             destruct (decimal_value_ascii _ _ H A) as (? & -> & ? & _);
             clear H A
         end.
  match goal with
  | |- context [chars_text (String ?a _) (String ?b _) (String ?c _)
                  (String ?d _) (String ?e _) (String ?f _) _] =>
      change (chars_text (String a EmptyString) (String b EmptyString)
                (String c EmptyString) (String d EmptyString)
                (String e EmptyString) (String f EmptyString) rest)
        with (hms_string a b c d e f rest) in *;
      assert (Forall (λ x, is_ascii_digit x = true) [a; b; c; d; e; f]) as Hdigits
        by (repeat constructor; done);
      unfold time_of_day; rewrite strptime_hms_string in Hstrp |- * by done;
      destruct (H_two a (String b EmptyString)) eqn:HH; [|done];
      destruct (M_two c (String d EmptyString)) eqn:HM; [|done];
      destruct (S_two e (String f EmptyString)) eqn:HS; [|done];
      destruct (String.eqb_spec rest EmptyString) as [->|]; [|done];
      destruct (_ <=? 59)%Z eqn:Hsec; [|done]; cbn [andb];
      exists a, b, c, d, e, f; repeat split; try done;
      [by apply two_digit_bounds|by apply Z.leb_le]
  end.
Qed.

End ValidTimes.
Section ValidTimeOrder.
Import TimeOfDay.

Lemma hms_compare_Lt (a b c d e f a' b' c' d' e' f' : ascii) :
  Forall (λ x, is_ascii_digit x = true) [a; b; c; d; e; f] →
  Forall (λ x, is_ascii_digit x = true) [a'; b'; c'; d'; e'; f'] →
  (10 * digit_val c + digit_val d ≤ 59)%Z →
  (10 * digit_val e + digit_val f ≤ 59)%Z →
  (10 * digit_val c' + digit_val d' ≤ 59)%Z →
  (10 * digit_val e' + digit_val f' ≤ 59)%Z →
  String.compare (hms_string a b c d e f EmptyString) (hms_string a' b' c' d' e' f' EmptyString) = Lt →
  (seconds (hms_value a b c d e f) < seconds (hms_value a' b' c' d' e' f'))%Z.
Proof.
  intros H H'.
  repeat (apply Forall_cons in H as [?%is_ascii_digit_val H]).
  repeat (apply Forall_cons in H' as [?%is_ascii_digit_val H']).
  unfold hms_string, hms_value, seconds. cbn [String.compare].
  change (Ascii.compare ":" ":") with Eq. cbv beta iota.
  unfold Ascii.compare, digit_val in *.
  intros.
  repeat match goal with
         | H : context [N.compare ?x ?y] |- _ =>
             destruct (N.compare_spec x y); try discriminate H
         end; lia.
Qed.

(** Between valid times written in ASCII the order of the strings is
    the order of the times of day. *)
Lemma valid_time_compare_Lt (s t : string) :
  valid_time s = true → valid_time t = true →
  ascii_only s = true → ascii_only t = true →
  String.compare s t = Lt → (time_of_day s < time_of_day t)%Z.
Proof.
  intros Hs Ht As At.
  destruct (valid_time_shape s Hs As)
    as (a & b & c & d & e & f & -> & Hd & -> & ? & ?).
  destruct (valid_time_shape t Ht At)
    as (a' & b' & c' & d' & e' & f' & -> & Hd' & -> & ? & ?).
  by apply hms_compare_Lt.
Qed.

End ValidTimeOrder.

(** ** The loader *)

Section Loader.

Variable routes_dict : gmap string RouteInfo.
Variable trips_dict : gmap string TripInfo.
Variable now : Z.
Variable today_instant : Z → Z.

#[local] Abbreviation row_step := (process_row routes_dict trips_dict now today_instant).
#[local] Abbreviation file_steps := (process_rows routes_dict trips_dict now today_instant).
#[local] Abbreviation load := (load_stop_times routes_dict trips_dict now today_instant).
#[local] Abbreviation same_day := (same_day_entries routes_dict trips_dict now today_instant).
#[local] Abbreviation next_day := (next_day_entries routes_dict trips_dict now today_instant).
#[local] Abbreviation text_of := (row_text routes_dict trips_dict).
#[local] Abbreviation instant_of := (row_instant today_instant).

(** A row that fails the pattern is skipped. *)
Lemma process_row_skip row st :
  TimeOfDay.time_pattern_match (row_arrival_time row) = false →
  row_step row st = Ok st.
Proof. intros H. unfold process_row. destruct st. by rewrite H. Qed.

(** A row that passes the pattern but not [strptime] raises. *)
Lemma process_row_raise row st e :
  TimeOfDay.time_pattern_match (row_arrival_time row) = true →
  TimeOfDay.strptime_HMS (row_arrival_time row) = Raise e →
  row_step row st = Raise e.
Proof.
  intros H1 H2. unfold process_row. destruct st. by rewrite H1, H2.
Qed.

(** A valid row is stored under its stop, today or tomorrow. *)
Lemma process_row_store row stop_schedule tomorrow_buses :
  valid_time (row_arrival_time row) = true →
  row_step row (stop_schedule, tomorrow_buses)
  = Ok (if decide (now ≤ instant_of row)%Z
        then (Py.dict_append (row_stop_id row)
                (row_arrival_time row, text_of row) stop_schedule,
              tomorrow_buses)
        else (stop_schedule,
              Py.dict_append (row_stop_id row)
                ((instant_of row + one_day)%Z, text_of row)
                tomorrow_buses)).
Proof.
  unfold valid_time, process_row, row_instant, time_of_day.
  rewrite andb_true_iff. intros [-> H].
  destruct (TimeOfDay.strptime_HMS (row_arrival_time row)) as [hms|]; [|done].
  cbn. destruct (Z.leb_spec now (today_instant (TimeOfDay.seconds hms)));
    case_decide; done || lia.
Qed.

Lemma same_day_entries_cons s row rows :
  same_day s (row :: rows)
  = (if decide (row_stop_id row = s ∧ (now ≤ instant_of row)%Z)
     then [(row_arrival_time row, text_of row)] else [])
    ++ same_day s rows.
Proof. unfold same_day_entries. simpl. by case_decide. Qed.

Lemma next_day_entries_cons s row rows :
  next_day s (row :: rows)
  = (if decide (row_stop_id row = s ∧ ¬ (now ≤ instant_of row)%Z)
     then [((instant_of row + one_day)%Z, text_of row)] else [])
    ++ next_day s rows.
Proof. unfold next_day_entries. simpl. by case_decide. Qed.

Lemma process_rows_lookup rows stop_schedule tomorrow_buses s :
  (file_steps rows (stop_schedule, tomorrow_buses)).1 !! s
  = extend (stop_schedule !! s) (same_day s (stored_rows rows))
  ∧ (file_steps rows (stop_schedule, tomorrow_buses)).2 !! s
    = extend (tomorrow_buses !! s) (next_day s (stored_rows rows)).
Proof.
  revert stop_schedule tomorrow_buses.
  induction rows as [|row rows IH]; intros stop_schedule tomorrow_buses;
    [done|].
  cbn [process_rows stored_rows].
  destruct (TimeOfDay.time_pattern_match (row_arrival_time row)) eqn:Hpat;
    cbn [negb].
  2: { rewrite process_row_skip by done. apply IH. }
  destruct (TimeOfDay.strptime_HMS (row_arrival_time row)) as [hms|e] eqn:Hstrp.
  2: { by rewrite (process_row_raise _ _ e). }
  rewrite process_row_store by (unfold valid_time; by rewrite Hpat, Hstrp).
  rewrite same_day_entries_cons, next_day_entries_cons, <- !extend_app.
  destruct (decide (now ≤ instant_of row)%Z) as [Hnow|Hnow].
  - destruct (IH (Py.dict_append (row_stop_id row)
                    (row_arrival_time row, text_of row) stop_schedule)
                 tomorrow_buses) as [-> ->].
    rewrite dict_append_lookup.
    split; f_equal; repeat case_decide; done || tauto.
  - destruct (IH stop_schedule
                 (Py.dict_append (row_stop_id row)
                    ((instant_of row + one_day)%Z, text_of row) tomorrow_buses))
      as [-> ->].
    rewrite dict_append_lookup.
    split; f_equal; repeat case_decide; done || tauto.
Qed.

Lemma same_day_entries_app s rows1 rows2 :
  same_day s (rows1 ++ rows2) = same_day s rows1 ++ same_day s rows2.
Proof. apply omap_app. Qed.

Lemma next_day_entries_app s rows1 rows2 :
  next_day s (rows1 ++ rows2) = next_day s rows1 ++ next_day s rows2.
Proof. apply omap_app. Qed.

Lemma load_fold_lookup files stop_schedule tomorrow_buses s :
  let st :=
    foldl (λ st file, match file with
                      | Some rows => file_steps rows st
                      | None => st
                      end)
          (stop_schedule, tomorrow_buses) files in
  st.1 !! s = extend (stop_schedule !! s) (same_day s (stored_files files))
  ∧ st.2 !! s = extend (tomorrow_buses !! s) (next_day s (stored_files files)).
Proof.
  revert stop_schedule tomorrow_buses.
  induction files as [|[rows|] files IH]; intros stop_schedule tomorrow_buses;
    cbn [foldl stored_files flat_map]; [done| |apply IH].
  rewrite same_day_entries_app, next_day_entries_app, <- !extend_app.
  destruct (process_rows_lookup rows stop_schedule tomorrow_buses s) as [<- <-].
  destruct (file_steps rows (stop_schedule, tomorrow_buses)) as [ss tb].
  apply IH.
Qed.

(** What the loader leaves under a stop: its same-day and its next-day
    candidates among the stored rows, in source order. *)
Lemma load_stop_times_lookup files s :
  (load files).1 !! s = extend None (same_day s (stored_files files))
  ∧ (load files).2 !! s = extend None (next_day s (stored_files files)).
Proof.
  pose proof (load_fold_lookup files ∅ ∅ s) as H.
  by rewrite !lookup_empty in H.
Qed.

End Loader.

(** ** The resolver *)

Lemma take_trail_stops (n : nat) (s t : string) (c : ascii) :
  Py.is_continuation c = false →
  (Py.take_trail n (s +:+ String c t)).2 ≠ EmptyString.
Proof.
  intros Hc. revert s. induction n as [|n IH]; intros s.
  - destruct s; by cbn.
  - destruct s as [|b s].
    + rewrite append_nil. cbn [Py.take_trail]. by rewrite Hc.
    + rewrite append_cons. cbn [Py.take_trail].
      destruct (Py.is_continuation b); [|done].
      specialize (IH s).
      by destruct (Py.take_trail n (s +:+ String c t)).
Qed.

(** A text with a joint in it has a character at index 1. *)
Lemma str_item1_joint (s t : string) :
  ∃ ch, Py.str_item1 (s +:+ Py.sep +:+ t) = Ok ch.
Proof.
  assert (∀ r, r ≠ EmptyString → ∃ ch, match Py.next_char r with
                                       | Some (ch, _) => Ok ch
                                       | None => Raise IndexError
                                       end = Ok ch) as Hsecond.
  { intros [|b r] Hr; [done|]. cbn [Py.next_char].
    destruct (Py.take_trail (Py.trail_count b) r). eauto. }
  unfold Py.str_item1. destruct s as [|b s].
  - change (EmptyString +:+ Py.sep +:+ t) with (String " " ("- " +:+ t)).
    cbn [Py.next_char].
    change (Py.take_trail (Py.trail_count " ") ("- " +:+ t))
      with (EmptyString, "- " +:+ t).
    cbv beta iota. by apply Hsecond.
  - rewrite append_cons. cbn [Py.next_char].
    pose proof (take_trail_stops (Py.trail_count b) s ("- " +:+ t) " " eq_refl)
      as Hrest.
    change (s +:+ String " " ("- " +:+ t)) with (s +:+ Py.sep +:+ t) in Hrest.
    destruct (Py.take_trail (Py.trail_count b) (s +:+ Py.sep +:+ t)).
    by apply Hsecond.
Qed.

Lemma display_item1 (number name identifier arrival_time : string) :
  ∃ ch, Py.str_item1 (display number name identifier arrival_time) = Ok ch.
Proof. apply str_item1_joint. Qed.

Lemma items1_length arrivals texts :
  items1 arrivals = Ok texts → length texts = length arrivals.
Proof.
  revert texts. induction arrivals as [|entry arrivals IH]; intros texts; simpl.
  - by intros [= <-].
  - destruct (entry_item1 entry) as [x|]; [|done]. simpl.
    destruct (items1 arrivals) as [xs|]; [|done]. simpl.
    intros [= <-]. simpl. f_equal. by apply IH.
Qed.

Lemma items1_or_nil_length arrivals :
  length (items1_or_nil arrivals) ≤ length arrivals.
Proof.
  unfold items1_or_nil. destruct (items1 arrivals) as [texts|] eqn:H; simpl.
  - by rewrite (items1_length _ _ H).
  - lia.
Qed.

Lemma items1_tuples (l : list (string * string)) :
  items1 (map (λ p, ETuple p.1 p.2) l) = Ok (map snd l).
Proof. induction l as [|p l IH]; simpl; [done|]. by rewrite IH. Qed.

Lemma items1_app l1 l2 :
  items1 (l1 ++ l2) = (x ← items1 l1; y ← items1 l2; Ok (x ++ y)).
Proof.
  induction l1 as [|e l1 IH]; simpl.
  - by destruct (items1 l2).
  - destruct (entry_item1 e); [|done]. simpl. rewrite IH.
    destruct (items1 l1); [|done]. simpl. by destruct (items1 l2).
Qed.

Lemma items1_strs {A} (l : list (A * string)) :
  Forall (λ p, ∃ ch, Py.str_item1 p.2 = Ok ch) l →
  ∃ chars, items1 (map (λ p, EStr p.2) l) = Ok chars
           ∧ length chars = length l.
Proof.
  induction 1 as [|p l [ch Hch] _ (chars & IH & Hlen)]; simpl.
  - by exists [].
  - rewrite Hch, IH. simpl. exists (ch :: chars).
    split; [done|]. simpl. by f_equal.
Qed.

Lemma finalize_stop_length tomorrow_buses s arrivals :
  length (finalize_stop tomorrow_buses s arrivals) ≤ 5.
Proof. unfold finalize_stop. rewrite length_take. lia. Qed.

(** With five or more same-day candidates nothing is added. *)
Lemma finalize_stop_full tomorrow_buses s arrivals :
  5 ≤ length arrivals →
  finalize_stop tomorrow_buses s arrivals
  = map (λ p, ETuple p.1 p.2) (take 5 (Py.sorted today_ltb arrivals)).
Proof.
  intros Hlen. unfold finalize_stop.
  assert (length (map (λ p : string * string, ETuple p.1 p.2)
                      (take 5 (Py.sorted today_ltb arrivals))) = 5) as Hfive.
  { rewrite length_map, length_take, sorted_length. lia. }
  rewrite Hfive.
  destruct (tomorrow_buses !! s); [destruct (decide (5 < 5)); [lia|]|];
    by rewrite take_ge by lia.
Qed.

Lemma finalize_stop_items1 tomorrow_buses s arrivals :
  Forall (λ p, ∃ ch, Py.str_item1 p.2 = Ok ch)
         (default [] (tomorrow_buses !! s)) →
  ∃ texts, items1 (finalize_stop tomorrow_buses s arrivals) = Ok texts.
Proof.
  intros Htexts. unfold finalize_stop.
  set (today := map (λ p : string * string, ETuple p.1 p.2)
                    (take 5 (Py.sorted today_ltb arrivals))).
  assert (∀ l n, (∃ t, items1 l = Ok t) → ∃ t, items1 (take n l) = Ok t) as Htake.
  { intros l n [t Ht]. rewrite <- (take_drop n l), items1_app in Ht.
    destruct (items1 (take n l)); [eauto|done]. }
  apply Htake.
  assert (∃ t, items1 today = Ok t) as [t Ht] by (eexists; apply items1_tuples).
  destruct (tomorrow_buses !! s) as [buses|]; [|eauto].
  destruct (decide (length today < 5)); [|eauto].
  rewrite items1_app, Ht. simpl in Htexts |- *.
  destruct (items1_strs (take (5 - length today) (Py.sorted tomorrow_ltb buses)))
    as (chars & -> & _); [|simpl; eauto].
  apply Forall_take. by rewrite sorted_perm.
Qed.

Section Resolver.

Variable routes_dict : gmap string RouteInfo.
Variable trips_dict : gmap string TripInfo.
Variable now : Z.
Variable today_instant : Z → Z.

#[local] Abbreviation load := (load_stop_times routes_dict trips_dict now today_instant).
#[local] Abbreviation same_day := (same_day_entries routes_dict trips_dict now today_instant).
#[local] Abbreviation next_day := (next_day_entries routes_dict trips_dict now today_instant).
#[local] Abbreviation resolver := (get_scheduled_arrivals routes_dict trips_dict now today_instant).

Lemma next_day_entries_item1 s rows :
  Forall (λ p, ∃ ch, Py.str_item1 p.2 = Ok ch)
         (next_day s rows).
Proof.
  unfold next_day_entries. induction rows as [|row rows IH]; simpl; [done|].
  case_decide; [|done]. constructor; [|done]. apply display_item1.
Qed.

(** The resolver never raises, and a stop's list is the projection of its
    finalized same-day list. *)
Lemma get_scheduled_arrivals_lookup files :
  ∃ stop_schedule,
    resolver files = Ok stop_schedule
    ∧ ∀ s, stop_schedule !! s
           = (λ arrivals, items1_or_nil (finalize_stop (load files).2 s arrivals))
             <$> (load files).1 !! s.
Proof.
  unfold get_scheduled_arrivals, project_texts.
  destruct (load files) as [ss tb] eqn:Hload.
  assert (∀ s, Forall (λ p, ∃ ch, Py.str_item1 p.2 = Ok ch)
                 (default [] (tb !! s))) as Htexts.
  { intros s.
    destruct (load_stop_times_lookup routes_dict trips_dict now today_instant files s)
      as [_ H].
    rewrite Hload in H. simpl in H. rewrite H, extend_default. simpl.
    apply next_day_entries_item1. }
  destruct (decide _) as [_|Hbad].
  - eexists; split; [done|]. intros s. simpl.
    rewrite lookup_fmap, map_lookup_imap. by destruct (ss !! s).
  - destruct Hbad. intros s arrivals. rewrite map_lookup_imap.
    destruct (ss !! s) as [l|]; [|done]. simpl. intros [= <-].
    unfold items1_ok.
    by destruct (finalize_stop_items1 tb s l (Htexts s)) as [texts ->].
Qed.

Lemma get_scheduled_arrivals_at_most_five files stop_schedule :
  resolver files = Ok stop_schedule →
  map_Forall (λ _ texts, length texts ≤ 5) stop_schedule.
Proof.
  destruct (get_scheduled_arrivals_lookup files) as (sched & -> & Hlookup).
  intros [= <-] s texts. rewrite Hlookup.
  destruct ((load files).1 !! s) as [arrivals|]; [|done]. simpl. intros [= <-].
  etrans; [apply items1_or_nil_length|apply finalize_stop_length].
Qed.

(** A stop without a same-day candidate is no key of the result. *)
Lemma get_scheduled_arrivals_no_same_day files stop_schedule s :
  resolver files = Ok stop_schedule →
  same_day s (stored_files files) = [] →
  stop_schedule !! s = None.
Proof.
  destruct (get_scheduled_arrivals_lookup files) as (sched & -> & Hlookup).
  intros [= <-] Hnone. rewrite Hlookup.
  destruct (load_stop_times_lookup routes_dict trips_dict now today_instant files s)
    as [-> _].
  by rewrite Hnone.
Qed.

(** With five or more same-day candidates: the texts of the first five in
    sorted order. *)
Lemma get_scheduled_arrivals_full files stop_schedule s :
  resolver files = Ok stop_schedule →
  5 ≤ length (same_day s (stored_files files)) →
  stop_schedule !! s
  = Some (map snd (take 5 (Py.sorted today_ltb (same_day s (stored_files files))))).
Proof.
  destruct (get_scheduled_arrivals_lookup files) as (sched & -> & Hlookup).
  intros [= <-] Hlen. rewrite Hlookup.
  destruct (load_stop_times_lookup routes_dict trips_dict now today_instant files s)
    as [-> _].
  destruct (same_day s (stored_files files)) as [|p l] eqn:Hsame;
    [simpl in Hlen; lia|].
  cbn [extend default fmap option_fmap option_map app].
  rewrite finalize_stop_full by done.
  unfold items1_or_nil. by rewrite items1_tuples.
Qed.

End Resolver.

(** ** The live path *)

Section Live.

Variable routes_dict : gmap string RouteInfo.
Variable utcoffset : Z → Z.

#[local] Abbreviation stop_times_loop := (process_stop_times utcoffset).
#[local] Abbreviation entities_loop := (process_entities routes_dict utcoffset).
#[local] Abbreviation text_of := (live_text routes_dict utcoffset).

(** [fromtimestamp] returns exactly on the convertible times; what it
    raises otherwise is one of three exceptions. *)
Lemma fromtimestamp_outcome (t : Z) :
  match fromtimestamp utcoffset t with
  | Ok wall => wall = (t + utcoffset t)%Z
               ∧ datetime_range t && datetime_range (t + utcoffset t) = true
  | Raise e => (e = OverflowError ∨ e = OSError ∨ e = ValueError)
               ∧ datetime_range t && datetime_range (t + utcoffset t) = false
  end.
Proof.
  unfold fromtimestamp.
  assert (datetime_range t = true → time_t_range t = true ∧ gmtime_range t = true)
    as Hranges.
  { unfold datetime_range, time_t_range, gmtime_range, MIN_TIMESTAMP,
      MAX_TIMESTAMP, TIME_T_MIN, TIME_T_MAX, GMTIME_MIN, GMTIME_MAX.
    rewrite !andb_true_iff, !Z.leb_le. lia. }
  destruct (datetime_range t) eqn:Ht.
  - destruct Hranges as [-> ->]; [done|]. cbn [negb andb].
    destruct (datetime_range (t + utcoffset t)); cbn [negb]; auto.
  - cbn [andb negb].
    destruct (time_t_range t); cbn [negb]; [|auto].
    destruct (gmtime_range t); cbn [negb]; auto.
Qed.

Lemma arrival_text_Ok stop_time text :
  arrival_text utcoffset stop_time = Ok text →
  text = arrival_suffix utcoffset stop_time.
Proof.
  unfold arrival_text, arrival_suffix.
  destruct (stu_arrival stop_time) as [t|]; [|by intros [= <-]].
  pose proof (fromtimestamp_outcome t) as Hft.
  destruct (fromtimestamp utcoffset t) as [wall|e]; [|done].
  destruct Hft as [-> _]. by intros [= <-].
Qed.

Lemma process_stop_times_lookup number name vehicle_id stop_times d d' s :
  stop_times_loop number name vehicle_id stop_times d = Ok d' →
  d' !! s
  = extend (d !! s)
      (omap (λ stop_time,
               if decide (stu_stop_id stop_time = s)
               then Some (display number name vehicle_id
                            (arrival_suffix utcoffset stop_time))
               else None) stop_times).
Proof.
  revert d. induction stop_times as [|stop_time rest IH]; intros d; simpl.
  - by intros [= <-].
  - destruct (arrival_text utcoffset stop_time) as [text|] eqn:Htext; [|done].
    apply arrival_text_Ok in Htext as ->. simpl. intros ->%IH.
    rewrite dict_append_lookup. case_decide.
    + by rewrite extend_app.
    + done.
Qed.

Lemma updates_for_cons s entity entities :
  updates_for s (entity :: entities)
  = match ent_trip_update entity with
    | Some trip_update =>
        omap (λ stop_time,
                if decide (stu_stop_id stop_time = s)
                then Some (trip_update, stop_time) else None)
             (tu_stop_time_update trip_update)
    | None => []
    end ++ updates_for s entities.
Proof. done. Qed.

(** After the entity loop a stop's list is the texts of the updates that
    name the stop, in feed order. *)
Lemma process_entities_lookup entities d d' s :
  entities_loop entities d = Ok d' →
  d' !! s = extend (d !! s) (map text_of (updates_for s entities)).
Proof.
  revert d. induction entities as [|entity entities IH]; intros d.
  - by intros [= <-].
  - rewrite updates_for_cons. cbn [process_entities].
    destruct (ent_trip_update entity) as [trip_update|]; [|apply IH].
    destruct (stop_times_loop _ _ _ _ d) as [d1|] eqn:Hd1; [|done].
    simpl. intros ->%IH.
    rewrite (process_stop_times_lookup _ _ _ _ _ _ s Hd1), extend_app.
    f_equal. rewrite map_app. f_equal.
    clear. induction (tu_stop_time_update trip_update) as [|st sts IHs]; [done|].
    cbn [omap list_omap]. case_decide; cbn [map]; by rewrite IHs.
Qed.

Lemma process_entities_texts entities trip_updates s :
  entities_loop entities ∅ = Ok trip_updates →
  default [] (trip_updates !! s) = map text_of (updates_for s entities).
Proof.
  intros H. rewrite (process_entities_lookup _ _ _ s H), lookup_empty.
  by rewrite extend_default.
Qed.

(** The route fields of the live path read keys that no value of
    [routes_dict] has. *)
Lemma live_route_fields_Unknown trip_update :
  live_route_number routes_dict trip_update = Unknown
  ∧ live_route_name routes_dict trip_update = Unknown.
Proof.
  unfold live_route_number, live_route_name, info_get.
  by destruct (routes_dict !! tu_route_id trip_update).
Qed.

End Live.

(** ** Assigning the lists to the stops *)

Lemma assign_upcoming_frame table stops :
  Forall2 same_static stops (assign_upcoming table stops).1.
Proof.
  induction stops as [|stop stops IH]; simpl; [constructor|].
  destruct (stop_item_id stop ≫= dict_get_or_nil table) as [buses|e].
  - destruct (assign_upcoming table stops) as [rest' outcome]. simpl in *.
    constructor; [|done]. intros key Hkey. by rewrite lookup_insert_ne.
  - simpl. apply Forall2_same_length_lookup_2; [done|].
    intros i x y Hx Hy. by simplify_eq.
Qed.

Lemma assign_upcoming_Ok table stops stops' :
  assign_upcoming table stops = (stops', Ok ()) →
  Forall2 (λ stop stop',
             ∃ key buses,
               stop !! "stop_id" = Some key
               ∧ dict_get_or_nil table key = Ok buses
               ∧ stop' = <["upcoming_buses" := PList buses]> stop)
          stops stops'.
Proof.
  revert stops'. induction stops as [|stop stops IH]; intros stops'; simpl.
  - intros [= <-]. constructor.
  - unfold stop_item_id.
    destruct (stop !! "stop_id") as [key|] eqn:Hkey; [|done]. simpl.
    destruct (dict_get_or_nil table key) as [buses|] eqn:Hbuses; [|done].
    destruct (assign_upcoming table stops) as [rest' outcome].
    intros [= <- ->]. constructor; [eauto|by apply IH].
Qed.

Lemma assign_upcoming_wf table stops :
  Forall stop_wf stops →
  assign_upcoming table stops
  = (map (λ stop,
            match stop !! "stop_id" with
            | Some (PStr s) =>
                <["upcoming_buses" := PList (default [] (table !! s))]> stop
            | _ => stop
            end) stops, Ok ()).
Proof.
  induction 1 as [|stop stops [s Hs] _ IH]; simpl; [done|].
  unfold stop_item_id. unfold stop_has_id in Hs. rewrite Hs. simpl.
  by rewrite IH.
Qed.

(** ** The handler *)

#[global] Instance same_static_preorder : PreOrder same_static.
Proof.
  split.
  - by intros stop key _.
  - intros x y z Hxy Hyz key Hkey. by rewrite Hyz, Hxy.
Qed.

Lemma assign_upcoming_wf_Forall2 table stops :
  Forall stop_wf stops →
  ∃ stops',
    assign_upcoming table stops = (stops', Ok ())
    ∧ Forall2 (λ stop stop',
                 ∃ s, stop_has_id stop s
                      ∧ stop' !! "upcoming_buses"
                        = Some (PList (default [] (table !! s))))
              stops stops'.
Proof.
  intros Hwf. eexists; split; [by apply assign_upcoming_wf|].
  induction Hwf as [|stop stops [s Hs] _ IH]; simpl; constructor; [|done].
  exists s. unfold stop_has_id in Hs |- *. rewrite Hs.
  by rewrite lookup_insert_eq.
Qed.

Section Handler.

Variable routes_dict : gmap string RouteInfo.
Variable trips_dict : gmap string TripInfo.
Variable now : Z.
Variable today_instant : Z → Z.
Variable utcoffset : Z → Z.

#[local] Abbreviation resolver := (get_scheduled_arrivals routes_dict trips_dict now today_instant).
#[local] Abbreviation entities_loop := (process_entities routes_dict utcoffset).
#[local] Abbreviation handler := (bus_stops routes_dict trips_dict now today_instant utcoffset).

(** When the feed failed, the handler is the assignment of the resolver's
    table. *)
Lemma bus_stops_fallback e files stops :
  ∃ stop_schedule,
    resolver files = Ok stop_schedule
    ∧ handler (Raise e) files stops
      = ((assign_upcoming stop_schedule stops).1,
         match (assign_upcoming stop_schedule stops).2 with
         | Ok _ => Ok (assign_upcoming stop_schedule stops).1
         | Raise e' => Raise e'
         end).
Proof.
  destruct (get_scheduled_arrivals_lookup routes_dict trips_dict now
              today_instant files) as (sched & Hsched & _).
  exists sched. split; [done|].
  unfold bus_stops, live_block, fallback_block. simpl. rewrite Hsched.
  by destruct (assign_upcoming sched stops) as [stops2 [[]|e']].
Qed.

(** When the entity loop and the assignment both complete, the handler
    returns the live lists. *)
Lemma bus_stops_live entities trip_updates files stops stops' :
  entities_loop entities ∅ = Ok trip_updates →
  assign_upcoming trip_updates stops = (stops', Ok ()) →
  handler (Ok entities) files stops = (stops', Ok stops').
Proof.
  intros H1 H2. unfold bus_stops, live_block. simpl. by rewrite H1, H2.
Qed.

(** When the entity loop raises, the handler falls back although the feed
    was decoded. *)
Lemma bus_stops_live_raise entities e files stops :
  entities_loop entities ∅ = Raise e →
  handler (Ok entities) files stops = handler (Raise e) files stops.
Proof.
  intros H. unfold bus_stops, live_block. simpl. by rewrite H.
Qed.

(** C10: a request changes nothing but the ["upcoming_buses"] key of the
    stop dicts: on the live path and on the fallback path, and also when
    the request ends in an exception, the stops are the same in number and
    order and every other key of every stop keeps its value; the stops of
    the response are the stops as the request leaves them. *)
Theorem bus_stops_frame (fetched : result (list FeedEntity))
    (files : list (option (list Row))) (stops : list (gmap string pyval)) :
  Forall2 same_static stops (handler fetched files stops).1
  ∧ match (handler fetched files stops).2 with
    | Ok response => response = (handler fetched files stops).1
    | Raise _ => True
    end.
Proof.
  unfold bus_stops.
  assert (Forall2 same_static stops (live_block routes_dict utcoffset fetched stops).1)
    as Hlive.
  { unfold live_block. destruct (_ ≫= _); [apply assign_upcoming_frame|done]. }
  destruct (live_block routes_dict utcoffset fetched stops) as [stops1 [[]|e]];
    [done|].
  simpl in Hlive.
  assert (Forall2 same_static stops1
            (fallback_block routes_dict trips_dict now today_instant files stops1).1)
    as Hfall.
  { unfold fallback_block. destruct (get_scheduled_arrivals _ _ _ _ _);
      [apply assign_upcoming_frame|done]. }
  destruct (fallback_block _ _ _ _ files stops1) as [stops2 [[]|e']]; simpl in *;
    split; try done; by etrans.
Qed.

(** C3: when the feed cannot be fetched or decoded, the request answers
    with every stop, and the ["upcoming_buses"] of each stop is the list
    the schedule resolver has for its [stop_id] at the same [now] (the
    empty list when the resolver has none); no live entry is involved. *)
Theorem fallback_is_whole_batch (e : exn) (files : list (option (list Row)))
    (stops : list (gmap string pyval)) :
  Forall stop_wf stops →
  ∃ stop_schedule stops',
    resolver files = Ok stop_schedule
    ∧ handler (Raise e) files stops = (stops', Ok stops')
    ∧ Forall2 (λ stop stop',
                 ∃ s, stop_has_id stop s
                      ∧ stop' !! "upcoming_buses"
                        = Some (PList (default [] (stop_schedule !! s))))
              stops stops'.
Proof.
  intros Hwf.
  destruct (bus_stops_fallback e files stops) as (sched & Hsched & ->).
  destruct (assign_upcoming_wf_Forall2 sched stops Hwf) as (stops' & -> & H).
  by exists sched, stops'.
Qed.

(** C1, amended: on the schedule-fallback path the ["upcoming_buses"] of
    every stop has at most 5 entries; on the live path the list of a stop
    has one entry for each stop-time update of the feed that names the
    stop, whatever their number. *)
Theorem upcoming_buses_length (e : exn) (entities : list FeedEntity)
    (trip_updates : gmap string (list string))
    (files : list (option (list Row))) (stops : list (gmap string pyval)) :
  Forall stop_wf stops →
  entities_loop entities ∅ = Ok trip_updates →
  (∃ stops',
     handler (Raise e) files stops = (stops', Ok stops')
     ∧ Forall (λ stop', ∃ buses, stop' !! "upcoming_buses" = Some (PList buses)
                                 ∧ length buses ≤ 5) stops')
  ∧ (∃ stops',
       handler (Ok entities) files stops = (stops', Ok stops')
       ∧ Forall2 (λ stop stop',
                    ∃ s buses,
                      stop_has_id stop s
                      ∧ stop' !! "upcoming_buses" = Some (PList buses)
                      ∧ length buses = length (updates_for s entities))
                 stops stops').
Proof.
  intros Hwf Hloop. split.
  - destruct (bus_stops_fallback e files stops) as (sched & Hsched & ->).
    destruct (assign_upcoming_wf_Forall2 sched stops Hwf) as (stops' & -> & H).
    exists stops'. split; [done|].
    apply get_scheduled_arrivals_at_most_five in Hsched.
    clear Hwf.
    induction H as [|stop stop' ?? (s & _ & Hs) _ IH]; [constructor|].
    constructor; [|done].
    eexists; split; [done|].
    destruct (sched !! s) as [buses|] eqn:Hb; simpl; [|lia].
    by apply (Hsched s).
  - destruct (assign_upcoming_wf_Forall2 trip_updates stops Hwf)
      as (stops' & Hassign & H).
    exists stops'. split; [by eapply bus_stops_live|].
    eapply Forall2_impl; [exact H|].
    intros stop stop' (s & Hid & Hs). exists s; eexists.
    split; [done|]. split; [done|].
    by rewrite (process_entities_texts _ _ _ _ s Hloop), length_map.
Qed.

(** C8, amended: when the feed was fetched and decoded and the entity
    loop completes (every arrival time in it converts to a local
    datetime), every stop that no stop-time update names receives the
    empty list, whatever the schedule files hold. *)
Theorem live_stop_without_updates (entities : list FeedEntity)
    (trip_updates : gmap string (list string))
    (files : list (option (list Row))) (stops : list (gmap string pyval)) :
  entities_loop entities ∅ = Ok trip_updates →
  Forall stop_wf stops →
  ∃ stops',
    handler (Ok entities) files stops = (stops', Ok stops')
    ∧ Forall2 (λ stop stop',
                 ∀ s, stop_has_id stop s → updates_for s entities = [] →
                      stop' !! "upcoming_buses" = Some (PList []))
              stops stops'.
Proof.
  intros Hloop Hwf.
  destruct (assign_upcoming_wf_Forall2 trip_updates stops Hwf)
    as (stops' & Hassign & H).
  exists stops'. split; [by eapply bus_stops_live|].
  eapply Forall2_impl; [exact H|].
  intros stop stop' (s & Hid & Hs) s' Hid' Hnone.
  unfold stop_has_id in Hid, Hid'. rewrite Hid in Hid'. injection Hid' as <-.
  by rewrite Hs, (process_entities_texts _ _ _ _ s Hloop), Hnone.
Qed.

End Handler.

(** ** Display strings *)

Lemma string_app_assoc (a b c : string) : (a +:+ b) +:+ c = a +:+ b +:+ c.
Proof.
  induction a as [|x a IH]; [done|].
  change (String x ((a +:+ b) +:+ c) = String x (a +:+ b +:+ c)).
  by rewrite IH.
Qed.

Lemma display_suffix (number name identifier arrival_time : string) :
  display number name identifier arrival_time
  = (number +:+ Py.sep +:+ name +:+ Py.sep +:+ identifier +:+ Py.sep)
    +:+ arrival_time.
Proof. unfold display. by rewrite !string_app_assoc. Qed.

Section LiveTexts.

Variable routes_dict : gmap string RouteInfo.
Variable utcoffset : Z → Z.

(** C7, amended: on the live path every stop-time update contributes
    exactly one display string to the list of its stop, in feed order; the
    string of an update with an arrival ends in the local HH:MM:SS
    rendering of its epoch, the string of an update without an arrival
    ends in "N/A". *)
Theorem live_one_text_per_update (entities : list FeedEntity)
    (trip_updates : gmap string (list string)) (s : string) :
  process_entities routes_dict utcoffset entities ∅ = Ok trip_updates →
  Forall2 (λ update text,
             ∃ prefix,
               text = prefix +:+ match stu_arrival update.2 with
                                 | Some t => TimeOfDay.strftime_HMS (t + utcoffset t)
                                 | None => "N/A"
                                 end)
          (updates_for s entities) (default [] (trip_updates !! s)).
Proof.
  intros Hloop. rewrite (process_entities_texts _ _ _ _ s Hloop).
  induction (updates_for s entities) as [|update updates IH]; simpl;
    constructor; [|done].
  eexists. unfold live_text. apply display_suffix.
Qed.

End LiveTexts.

(** ** Same-day candidates *)

Lemma StronglySorted_impl_Forall {A} (P : A → Prop) (R R' : A → A → Prop) l :
  (∀ x y, P x → P y → R x y → R' x y) →
  Forall P l → StronglySorted R l → StronglySorted R' l.
Proof.
  intros Himpl HP Hsorted. induction Hsorted as [|x l _ IH Hx]; [constructor|].
  apply Forall_cons in HP as [Hpx HP]. constructor; [by apply IH|].
  rewrite Forall_forall in Hx, HP |- *. intros y Hy. apply Himpl; auto.
Qed.

Lemma stored_rows_valid rows :
  Forall (λ row, valid_time (row_arrival_time row) = true) (stored_rows rows).
Proof.
  induction rows as [|row rows IH]; simpl; [done|].
  destruct (TimeOfDay.time_pattern_match (row_arrival_time row)) eqn:Hpat;
    simpl; [|done].
  destruct (TimeOfDay.strptime_HMS (row_arrival_time row)) eqn:Hstrp; [|done].
  constructor; [|done]. unfold valid_time. by rewrite Hpat, Hstrp.
Qed.

Lemma stored_files_valid files :
  Forall (λ row, valid_time (row_arrival_time row) = true) (stored_files files).
Proof.
  unfold stored_files. induction files as [|[rows|] files IH]; simpl; [done| |done].
  apply Forall_app. split; [apply stored_rows_valid|done].
Qed.

(** On valid times the order of the tuples is the order of the
    [arrival_time] strings, then of the texts; between times written in
    ASCII the former is the order of the times of day. *)
Lemma today_cmp_entry_le (x y : string * string) :
  valid_time x.1 = true → valid_time y.1 = true →
  cmp_le today_cmp x y → entry_le x y.
Proof.
  destruct x as [t d], y as [t' d']. unfold cmp_le, today_cmp, lex_cmp, entry_le.
  simpl. intros Hv Hv'.
  destruct (String.compare t t') eqn:Ht; [| |done]; intros Hle.
  - right. split; [by apply String.compare_eq_iff|done].
  - left. split; [done|]. intros. by apply valid_time_compare_Lt.
Qed.

Section Claims.

Variable routes_dict : gmap string RouteInfo.
Variable trips_dict : gmap string TripInfo.
Variable now : Z.
Variable today_instant : Z → Z.

#[local] Abbreviation same_day := (same_day_entries routes_dict trips_dict now today_instant).
#[local] Abbreviation resolver := (get_scheduled_arrivals routes_dict trips_dict now today_instant).

Lemma same_day_entries_valid s rows :
  Forall (λ row, valid_time (row_arrival_time row) = true) rows →
  Forall (λ p, valid_time p.1 = true) (same_day s rows).
Proof.
  unfold same_day_entries. induction 1 as [|row rows Hrow _ IH]; simpl; [done|].
  case_decide; [by constructor|done].
Qed.


(** C9, amended: for a schedule row with a valid arrival time, a
    [trip_id] absent from the trip table resolves to the route id
    "Unknown", and a resolved route id absent from the route table never
    raises: the row is stored under its stop, today or tomorrow, with the
    text ["Unknown - Unknown - {trip_id} - {arrival_time}"]. *)
Theorem unknown_reference_degrades (row : Row)
    (stop_schedule : gmap string (list (string * string)))
    (tomorrow_buses : gmap string (list (Z * string))) :
  valid_time (row_arrival_time row) = true →
  routes_dict !! row_route_id trips_dict row = None →
  (trips_dict !! row_trip_id row = None → row_route_id trips_dict row = Unknown)
  ∧ row_text routes_dict trips_dict row
    = display Unknown Unknown (row_trip_id row) (row_arrival_time row)
  ∧ ∃ st',
      process_row routes_dict trips_dict now today_instant row
        (stop_schedule, tomorrow_buses) = Ok st'
      ∧ (st'.1 !! row_stop_id row
         = Some (default [] (stop_schedule !! row_stop_id row)
                 ++ [(row_arrival_time row, row_text routes_dict trips_dict row)])
         ∨ st'.2 !! row_stop_id row
           = Some (default [] (tomorrow_buses !! row_stop_id row)
                   ++ [((row_instant today_instant row + one_day)%Z,
                        row_text routes_dict trips_dict row)])).
Proof.
  intros Hvalid Hroute. split; [|split].
  - unfold row_route_id. by intros ->.
  - unfold row_text, row_route_info. by rewrite Hroute.
  - rewrite process_row_store by done. eexists; split; [done|].
    case_decide; [left|right]; simpl; by rewrite dict_append_lookup, decide_True.
Qed.

End Claims.

(** ** [strftime] renders a valid time *)

Section Strftime.
Import TimeOfDay.

Lemma digit_char_N (d : Z) :
  (0 ≤ d ≤ 9)%Z → N_of_ascii (digit_char d) = Z.to_N (48 + d).
Proof. intros H. unfold digit_char. apply N_ascii_embedding. lia. Qed.

Lemma digit_char_digit (d : Z) :
  (0 ≤ d ≤ 9)%Z → is_ascii_digit (digit_char d) = true ∧ digit_val (digit_char d) = d.
Proof.
  intros H. unfold is_ascii_digit, digit_val. rewrite digit_char_N by done.
  rewrite andb_true_iff, !N.leb_le. lia.
Qed.

Lemma in_range_digit_char (lo hi : ascii) (d : Z) :
  (0 ≤ d ≤ 9)%Z →
  in_range lo hi (digit_char d)
  = (Z.of_N (N_of_ascii lo) - 48 <=? d)%Z && (d <=? Z.of_N (N_of_ascii hi) - 48)%Z.
Proof.
  intros H. unfold in_range. rewrite digit_char_N by done.
  apply eq_true_iff_eq. rewrite !andb_true_iff, !N.leb_le, !Z.leb_le. lia.
Qed.

Lemma is_decimal_single (c : ascii) :
  is_ascii_digit c = true → is_decimal (String c EmptyString) = true.
Proof. intros H. unfold is_decimal. by rewrite decimal_value_single. Qed.

Lemma pad2_fields (n : Z) :
  (0 ≤ n ≤ 59)%Z →
  let a := digit_char (n / 10) in
  let b := digit_char (n mod 10) in
  is_ascii_digit a = true ∧ is_ascii_digit b = true
  ∧ (10 * digit_val a + digit_val b = n)%Z
  ∧ M_two a (String b EmptyString) = true
  ∧ S_two a (String b EmptyString) = true
  ∧ (n ≤ 23 → H_two a (String b EmptyString) = true)%Z.
Proof.
  intros Hn. simpl.
  pose proof (Z.div_mod n 10) as Hdm. pose proof (Z.mod_pos_bound n 10) as Hmod.
  assert (0 ≤ n / 10 ≤ 5)%Z as H1 by lia.
  assert (0 ≤ n mod 10 ≤ 9)%Z as H2 by lia.
  destruct (digit_char_digit (n / 10)) as [Ha Hva]; [lia|].
  destruct (digit_char_digit (n mod 10)) as [Hb Hvb]; [lia|].
  rewrite Hva, Hvb. repeat split; try done.
  - lia.
  - unfold M_two. rewrite in_range_digit_char, is_decimal_single by (done || lia).
    change (Z.of_N (N_of_ascii "0") - 48)%Z with 0%Z.
    change (Z.of_N (N_of_ascii "5") - 48)%Z with 5%Z.
    rewrite andb_true_iff. split; [|done].
    rewrite andb_true_iff, !Z.leb_le. lia.
  - unfold S_two, in_class.
    rewrite !in_range_digit_char, is_decimal_single by (done || lia).
    change (Z.of_N (N_of_ascii "0") - 48)%Z with 0%Z.
    change (Z.of_N (N_of_ascii "5") - 48)%Z with 5%Z.
    rewrite orb_true_iff. right.
    rewrite !andb_true_iff, !Z.leb_le. lia.
  - intros H23. unfold H_two, in_class.
    rewrite !in_range_digit_char, is_decimal_single by (done || lia).
    change (Z.of_N (N_of_ascii "0") - 48)%Z with 0%Z.
    change (Z.of_N (N_of_ascii "1") - 48)%Z with 1%Z.
    change (Z.of_N (N_of_ascii "3") - 48)%Z with 3%Z.
    rewrite orb_true_iff, !andb_true_iff, !Z.leb_le.
    assert (n / 10 = 2 ∨ n / 10 ≤ 1)%Z as [H|H] by lia.
    + left. rewrite H. split; [done|]. lia.
    + right. lia.
Qed.

Lemma time_pattern_match_hms (a b c d e f : ascii) :
  Forall (λ x, is_ascii_digit x = true) [a; b; c; d; e; f] →
  time_pattern_match (hms_string a b c d e f EmptyString) = true.
Proof.
  intros H. repeat (apply Forall_cons in H as [? H]).
  change (hms_string a b c d e f EmptyString)
    with (chars_text (String a EmptyString) (String b EmptyString)
            (String c EmptyString) (String d EmptyString)
            (String e EmptyString) (String f EmptyString) EmptyString).
  rewrite time_pattern_match_chars; [done|].
  repeat constructor; by apply is_decimal_single.
Qed.

(** The rendering of a wall clock is a valid time string, and it denotes
    the wall clock's time of day. *)
Lemma strftime_HMS_valid (wall : Z) :
  valid_time (strftime_HMS wall) = true
  ∧ time_of_day (strftime_HMS wall) = (wall mod 86400)%Z.
Proof.
  pose proof (Z.mod_pos_bound (wall / 3600) 24) as HH.
  pose proof (Z.mod_pos_bound (wall / 60) 60) as HM.
  pose proof (Z.mod_pos_bound wall 60) as HS.
  destruct (pad2_fields ((wall / 3600) mod 24)) as (Ha & Hb & Hh & _ & _ & HH2); [lia|].
  destruct (pad2_fields ((wall / 60) mod 60)) as (Hc & Hd & Hm & HM2 & _); [lia|].
  destruct (pad2_fields (wall mod 60)) as (He & Hf & Hs & _ & HS2 & _); [lia|].
  set (h := ((wall / 3600) mod 24)%Z) in *.
  set (m := ((wall / 60) mod 60)%Z) in *.
  set (s := (wall mod 60)%Z) in *.
  change (strftime_HMS wall)
    with (hms_string (digit_char (h / 10)) (digit_char (h mod 10))
            (digit_char (m / 10)) (digit_char (m mod 10))
            (digit_char (s / 10)) (digit_char (s mod 10)) EmptyString).
  assert (Forall (λ x, is_ascii_digit x = true)
            [digit_char (h / 10); digit_char (h mod 10); digit_char (m / 10);
             digit_char (m mod 10); digit_char (s / 10); digit_char (s mod 10)])
    as Hdigits by (repeat constructor; done).
  unfold valid_time, time_of_day.
  rewrite time_pattern_match_hms, strptime_hms_string by done.
  rewrite HH2, HM2, HS2 by lia. cbn [andb String.eqb].
  rewrite Hs. destruct (Z.leb_spec s 59); [|lia].
  split; [done|]. unfold hms_value, seconds. rewrite Hh, Hm, Hs.
  subst h m s.
  rewrite (Z.div_mod wall 86400) at 1 2 3 by lia.
  set (q := (wall / 86400)%Z). set (r := (wall mod 86400)%Z).
  assert (0 ≤ r < 86400)%Z by (apply Z.mod_pos_bound; lia).
  replace ((86400 * q + r) / 3600)%Z with (q * 24 + r / 3600)%Z
    by (rewrite <- (Z.div_add_l _ 3600) by lia; f_equal; lia).
  replace ((86400 * q + r) / 60)%Z with (q * 1440 + r / 60)%Z
    by (rewrite <- (Z.div_add_l _ 60) by lia; f_equal; lia).
  replace (q * 24 + r / 3600)%Z with (r / 3600 + q * 24)%Z by lia.
  replace (q * 1440 + r / 60)%Z with (r / 60 + (q * 24) * 60)%Z by lia.
  replace (86400 * q + r)%Z with (r + (q * 1440) * 60)%Z by lia.
  rewrite !Z.mod_add by lia.
  pose proof (Z.div_mod r 3600). pose proof (Z.div_mod r 60).
  pose proof (Z.div_mod (r / 60) 60).
  assert (r / 60 / 60 = r / 3600)%Z as Hdd by (rewrite Z.div_div by lia; done).
  assert (0 ≤ r / 3600 < 24)%Z
    by (split; [apply Z.div_pos|apply Z.div_lt_upper_bound]; lia).
  rewrite (Z.mod_small (r / 3600) 24) by lia. lia.
Qed.

End Strftime.

(** ** The claims on sample data *)

Section Samples.
Import Sample.

(** C1, as stated, fails on the live path: six stop-time updates that
    name one stop give that stop a list of six entries. *)
Lemma live_list_of_six :
  ∃ buses,
    response_upcoming
      (bus_stops routes_dict trips_dict (clock 9 0) today_instant utcoffset
         (Ok feed_six) files stops).2 0 = Some (PList buses)
    ∧ ¬ length buses ≤ 5.
Proof. eexists. split; [vm_compute; reflexivity|]. simpl. lia. Qed.

Lemma upcoming_buses_length_witness :
  Forall stop_wf stops
  ∧ process_entities routes_dict utcoffset feed_six ∅ = Ok (live_table feed_six)
  ∧ (∃ stops',
       bus_stops routes_dict trips_dict (clock 9 0) today_instant utcoffset
         (Raise RequestException) files stops = (stops', Ok stops')
       ∧ Forall (λ stop', ∃ buses, stop' !! "upcoming_buses" = Some (PList buses)
                                   ∧ length buses ≤ 5) stops')
  ∧ (∃ stops',
       bus_stops routes_dict trips_dict (clock 9 0) today_instant utcoffset
         (Ok feed_six) files stops = (stops', Ok stops')
       ∧ Forall2 (λ stop stop',
                    ∃ s buses,
                      stop_has_id stop s
                      ∧ stop' !! "upcoming_buses" = Some (PList buses)
                      ∧ length buses = length (updates_for s feed_six))
                 stops stops').
Proof.
  assert (Forall stop_wf stops) as Hwf
    by (repeat constructor; eexists; reflexivity).
  assert (process_entities routes_dict utcoffset feed_six ∅
          = Ok (live_table feed_six)) as Hloop by (vm_compute; reflexivity).
  split; [exact Hwf|]. split; [exact Hloop|].
  exact (upcoming_buses_length routes_dict trips_dict (clock 9 0) today_instant
           utcoffset RequestException feed_six (live_table feed_six) files stops
           Hwf Hloop).
Defined.

(** C2: the code at two failing inputs.  With one same-day and one
    next-day row the next-day entry is the single character at index 1 of
    its display text; a stop whose only row is a next-day row is no key of
    the result at all. *)
Theorem top_up_entries_broken :
  texts_for
    (get_scheduled_arrivals ∅ ∅ (clock 9 0) today_instant
       [Some [row "S" "T1" "08:00:00"; row "S" "T2" "10:00:00"]]) "S"
  = Ok (Some ["Unknown - Unknown - T2 - 10:00:00"; "n"])
  ∧ texts_for
      (get_scheduled_arrivals ∅ ∅ (clock 9 0) today_instant
         [Some [row "S" "T1" "08:00:00"]]) "S"
    = Ok None.
Proof. split; vm_compute; reflexivity. Qed.

Lemma fallback_is_whole_batch_witness :
  Forall stop_wf stops
  ∧ ∃ stop_schedule stops',
      get_scheduled_arrivals routes_dict trips_dict (clock 9 0) today_instant files
      = Ok stop_schedule
      ∧ bus_stops routes_dict trips_dict (clock 9 0) today_instant utcoffset
          (Raise DecodeError) files stops = (stops', Ok stops')
      ∧ Forall2 (λ stop stop',
                   ∃ s, stop_has_id stop s
                        ∧ stop' !! "upcoming_buses"
                          = Some (PList (default [] (stop_schedule !! s))))
                stops stops'.
Proof.
  assert (Forall stop_wf stops) as Hwf
    by (repeat constructor; eexists; reflexivity).
  split; [exact Hwf|].
  exact (fallback_is_whole_batch routes_dict trips_dict (clock 9 0) today_instant
           utcoffset DecodeError files stops Hwf).
Defined.

(** C4: the code at a failing input.  The time "25:00:00" passes the
    pattern and makes [strptime] raise, which ends the file: the valid row
    after it is lost.  A time that fails the pattern, "9:5:3", is skipped
    and the row after it is stored. *)
Theorem out_of_range_time_ends_file :
  texts_for
    (get_scheduled_arrivals ∅ ∅ (clock 0 0) today_instant
       [Some [row "S" "T1" "25:00:00"; row "S" "T2" "23:59:59"]]) "S"
  = Ok None
  ∧ texts_for
      (get_scheduled_arrivals ∅ ∅ (clock 0 0) today_instant
         [Some [row "S" "T1" "9:5:3"; row "S" "T2" "23:59:59"]]) "S"
    = Ok (Some ["Unknown - Unknown - T2 - 23:59:59"]).
Proof. split; vm_compute; reflexivity. Qed.



(** C6: the code at a failing input.  The route "10" is in the route
    table with the names "30" and "Limassol"; the schedule path shows
    them, the live path shows "Unknown" for both. *)
Theorem live_route_names_lost :
  routes_dict !! "10" = Some {| route_number := "30"; route_name := "Limassol" |}
  ∧ texts_for
      (process_entities routes_dict utcoffset
         [entity "10" (Some "V1") [update "S" (Some 3600%Z)]] ∅) "S"
    = Ok (Some ["Unknown - Unknown - V1 - 03:00:00"])
  ∧ texts_for
      (get_scheduled_arrivals routes_dict trips_dict (clock 0 0) today_instant
         [Some [row "S" "T1" "03:00:00"]]) "S"
    = Ok (Some ["30 - Limassol - T1 - 03:00:00"]).
Proof. repeat split; vm_compute; reflexivity. Qed.

(** C7, as stated, fails for an update without an arrival: it does
    contribute an entry, one that ends in "N/A". *)
Lemma update_without_arrival_is_listed :
  stu_arrival (update "S" None) = None
  ∧ texts_for
      (process_entities routes_dict utcoffset
         [entity "10" (Some "V1") [update "S" None]] ∅) "S"
    = Ok (Some ["Unknown - Unknown - V1 - N/A"]).
Proof. split; vm_compute; reflexivity. Qed.

Lemma live_one_text_per_update_witness :
  process_entities routes_dict utcoffset feed ∅ = Ok (live_table feed)
  ∧ Forall2 (λ update text,
               ∃ prefix,
                 text = prefix +:+ match stu_arrival update.2 with
                                   | Some t => TimeOfDay.strftime_HMS (t + utcoffset t)
                                   | None => "N/A"
                                   end)
            (updates_for "S" feed) (default [] (live_table feed !! "S")).
Proof.
  assert (process_entities routes_dict utcoffset feed ∅ = Ok (live_table feed))
    as Hloop by (vm_compute; reflexivity).
  split; [exact Hloop|].
  exact (live_one_text_per_update routes_dict utcoffset feed (live_table feed)
           "S" Hloop).
Defined.

(** C8, as stated, fails when the feed was fetched and decoded but holds
    an arrival time that no datetime can hold: the handler falls back, and
    the stop "Q", which no update names, gets its scheduled list. *)
Lemma decoded_feed_still_falls_back :
  updates_for "Q" feed_far = []
  ∧ response_upcoming
      (bus_stops routes_dict trips_dict (clock 9 0) today_instant utcoffset
         (Ok feed_far) files stops).2 1
    = Some (PList ["Unknown - Unknown - T2 - 10:05:00"]).
Proof. split; vm_compute; reflexivity. Qed.

Lemma live_stop_without_updates_witness :
  process_entities routes_dict utcoffset feed ∅ = Ok (live_table feed)
  ∧ Forall stop_wf stops
  ∧ ∃ stops',
      bus_stops routes_dict trips_dict (clock 9 0) today_instant utcoffset
        (Ok feed) files stops = (stops', Ok stops')
      ∧ Forall2 (λ stop stop',
                   ∀ s, stop_has_id stop s → updates_for s feed = [] →
                        stop' !! "upcoming_buses" = Some (PList []))
                stops stops'.
Proof.
  assert (process_entities routes_dict utcoffset feed ∅ = Ok (live_table feed))
    as Hloop by (vm_compute; reflexivity).
  assert (Forall stop_wf stops) as Hwf
    by (repeat constructor; eexists; reflexivity).
  split; [exact Hloop|]. split; [exact Hwf|].
  exact (live_stop_without_updates routes_dict trips_dict (clock 9 0)
           today_instant utcoffset feed (live_table feed) files stops Hloop Hwf).
Defined.

(** C9, as stated, fails when the sentinel is a route id: the trip "T7" is
    not in the trip table, and the row shows the names of the route whose
    id is "Unknown". *)
Lemma absent_trip_finds_sentinel_route :
  trips_dict !! "T7" = None
  ∧ texts_for
      (get_scheduled_arrivals sentinel_routes trips_dict (clock 9 0) today_instant
         [Some [row "S" "T7" "10:00:00"]]) "S"
    = Ok (Some ["99 - Ghost - T7 - 10:00:00"]).
Proof. split; vm_compute; reflexivity. Qed.

Lemma unknown_reference_degrades_witness :
  valid_time (row_arrival_time (row "S" "T7" "10:00:00")) = true
  ∧ routes_dict !! row_route_id trips_dict (row "S" "T7" "10:00:00") = None
  ∧ row_text routes_dict trips_dict (row "S" "T7" "10:00:00")
    = display Unknown Unknown "T7" "10:00:00".
Proof.
  assert (valid_time (row_arrival_time (row "S" "T7" "10:00:00")) = true)
    as Hvalid by (vm_compute; reflexivity).
  assert (routes_dict !! row_route_id trips_dict (row "S" "T7" "10:00:00") = None)
    as Hroute by (vm_compute; reflexivity).
  split; [exact Hvalid|]. split; [exact Hroute|].
  exact (proj1 (proj2 (unknown_reference_degrades routes_dict trips_dict
                         (clock 9 0) today_instant (row "S" "T7" "10:00:00")
                         ∅ ∅ Hvalid Hroute))).
Defined.

End Samples.

(* ================================================================== *)
(** * Part III: further properties of the code *)
(* ================================================================== *)

(** ** Accepted arrival times *)

Section AcceptedTimes.
Import TimeOfDay.

Lemma append_nil_r (s : string) : s +:+ EmptyString = s.
Proof.
  induction s as [|c s IH]; [done|]. rewrite append_cons. by rewrite IH.
Qed.

Lemma hms_text_chars (a : ascii) (b : string) (c : ascii) (d : string)
    (e : ascii) (f : string) :
  chars_text (String a EmptyString) b (String c EmptyString) d
    (String e EmptyString) f EmptyString
  = hms_text a b c d e f.
Proof.
  unfold chars_text, hms_text. rewrite !append_cons, !append_nil.
  by rewrite append_nil_r.
Qed.

Lemma unicode_digits_values :
  Forall (λ p, (0 ≤ p.2 ≤ 9)%Z) unicode_digits.
Proof.
  apply Forall_forall. intros p Hp.
  assert (forallb (λ p, (0 <=? p.2)%Z && (p.2 <=? 9)%Z) unicode_digits = true)
    as Hall by (vm_compute; reflexivity).
  rewrite forallb_forall in Hall. apply list_elem_of_In, Hall in Hp.
  apply andb_true_iff in Hp as [?%Z.leb_le ?%Z.leb_le]. lia.
Qed.

(** The value of a decimal digit is one of 0 to 9. *)
Lemma decimal_value_bounds (ch : string) (v : Z) :
  decimal_value ch = Some v → (0 ≤ v ≤ 9)%Z.
Proof.
  assert (snd <$> List.find (λ p, String.eqb p.1 ch) unicode_digits = Some v →
          (0 ≤ v ≤ 9)%Z) as Htable.
  { destruct (List.find _ _) as [p|] eqn:Hfind; [|done]. intros [= <-].
    apply find_some in Hfind as [Hin _].
    pose proof unicode_digits_values as Hall. rewrite Forall_forall in Hall.
    by apply Hall, list_elem_of_In. }
  destruct ch as [|c [|c' r]]; unfold decimal_value; [done| |done].
  destruct (is_ascii_digit c) eqn:Hc; [|done]. intros [= <-].
  by apply is_ascii_digit_val.
Qed.

Lemma single_Some (ch : string) (c : ascii) :
  single ch = Some c → ch = String c EmptyString.
Proof. destruct ch as [|c' [|]]; [done| |done]. by intros [= ->]. Qed.

Lemma decimal_value_single_inv (c : ascii) (v : Z) :
  decimal_value (String c EmptyString) = Some v → is_ascii_digit c = true.
Proof. unfold decimal_value. by destruct (is_ascii_digit c). Qed.

(** The classes [[0-1]] and [[0-5]] and the character [2] among the
    ASCII digits. *)
Lemma in_range_digit (hi c : ascii) :
  is_ascii_digit c = true →
  in_range "0" hi c = (digit_val c <=? digit_val hi)%Z.
Proof.
  unfold is_ascii_digit, in_range, digit_val.
  change (N_of_ascii "0") with 48%N.
  rewrite andb_true_iff, !N.leb_le. intros [H0 H9].
  destruct (N.leb_spec 48 (N_of_ascii c)); [|lia]. cbn [andb].
  apply eq_true_iff_eq. rewrite N.leb_le, Z.leb_le. lia.
Qed.

Lemma digit_two (c : ascii) :
  is_ascii_digit c = true → Ascii.eqb c "2" = (digit_val c =? 2)%Z.
Proof.
  intros _. unfold digit_val. apply eq_true_iff_eq.
  rewrite Ascii.eqb_eq, Z.eqb_eq. split; [by intros ->|].
  intros H. rewrite <- (ascii_N_embedding c).
  replace (N_of_ascii c) with 50%N by lia. done.
Qed.

(** The two-digit alternatives on a first ASCII digit and a second
    decimal digit. *)
Lemma two_digit_fields (a : ascii) (b : string) :
  is_ascii_digit a = true → is_decimal b = true →
  (H_two a b = true
   ↔ (digit_val a ≤ 1 ∨ digit_val a = 2 ∧ in_class "0" "3" b = true)%Z)
  ∧ (M_two a b = true ↔ (digit_val a ≤ 5)%Z)
  ∧ ((digit_val a ≤ 5)%Z → S_two a b = true).
Proof.
  intros Ha Hb. unfold H_two, M_two, S_two.
  rewrite !in_range_digit, digit_two, Hb by done.
  change (digit_val "1") with 1%Z. change (digit_val "5") with 5%Z.
  rewrite !andb_true_r, orb_true_iff, !andb_true_iff, !Z.leb_le, Z.eqb_eq.
  split; [tauto|]. split; [done|]. intros H. apply orb_true_iff. right.
  by apply Z.leb_le.
Qed.

(** In the last field a first digit [6] gives a second of 60 or 61. *)
Lemma S_two_seconds (e : ascii) (f : string) (v : Z) :
  is_ascii_digit e = true → decimal_value f = Some v →
  S_two e f = true → (10 * digit_val e + v ≤ 59)%Z → (digit_val e ≤ 5)%Z.
Proof.
  intros He Hf. pose proof (decimal_value_bounds _ _ Hf).
  unfold S_two. rewrite in_range_digit by done.
  change (digit_val "5") with 5%Z.
  rewrite orb_true_iff, !andb_true_iff, Z.leb_le.
  intros [[->%Ascii.eqb_eq _]|[? _]]; [|done].
  change (digit_val "6") with 6%Z. lia.
Qed.

(** X1: an [arrival_time] passes the pattern of line 63 and is accepted
    by [strptime] of line 91, the two checks a row must pass to be stored,
    exactly when it is six characters with colons between the pairs, each
    pair an ASCII digit followed by a decimal digit of any script, with an
    hour that begins with 0 or 1, or with 2 followed by one of the ASCII
    digits 0 to 3, and a minute and a second that begin with one of 0 to
    5. *)
Theorem valid_time_iff (s : string) :
  valid_time s = true
  ↔ ∃ a b c d e f,
      s = hms_text a b c d e f
      ∧ Forall (λ x, is_ascii_digit x = true) [a; c; e]
      ∧ Forall (λ ch, is_decimal ch = true) [b; d; f]
      ∧ (digit_val a ≤ 1 ∨ digit_val a = 2 ∧ in_class "0" "3" b = true)%Z
      ∧ (digit_val c ≤ 5)%Z
      ∧ (digit_val e ≤ 5)%Z.
Proof.
  split.
  - unfold valid_time. rewrite andb_true_iff. intros [Hpat Hstrp].
    apply time_pattern_match_inv in Hpat
      as (ch1 & ch2 & ch3 & ch4 & ch5 & ch6 & rest & -> & Hd & _).
    apply Forall_cons in Hd as [H1 Hd]. apply Forall_cons in Hd as [H2 Hd].
    apply Forall_cons in Hd as [H3 Hd]. apply Forall_cons in Hd as [H4 Hd].
    apply Forall_cons in Hd as [H5 Hd]. apply Forall_cons in Hd as [H6 _].
    pose proof H2 as D2. pose proof H4 as D4. pose proof H6 as D6.
    unfold is_decimal in H1, H2, H3, H4, H5, H6.
    destruct (decimal_value ch1) as [v1|] eqn:V1; [|done].
    destruct (decimal_value ch2) as [v2|] eqn:V2; [|done].
    destruct (decimal_value ch3) as [v3|] eqn:V3; [|done].
    destruct (decimal_value ch4) as [v4|] eqn:V4; [|done].
    destruct (decimal_value ch5) as [v5|] eqn:V5; [|done].
    destruct (decimal_value ch6) as [v6|] eqn:V6; [|done].
    rewrite (strptime_chars _ _ _ _ _ _ _ _ _ _ _ _ _ V1 V2 V3 V4 V5 V6) in Hstrp.
    destruct (single ch1) as [a|] eqn:S1; [|done].
    destruct (single ch3) as [c|] eqn:S3; [|done].
    destruct (single ch5) as [e|] eqn:S5; [|done].
    apply single_Some in S1 as ->. apply single_Some in S3 as ->.
    apply single_Some in S5 as ->.
    apply decimal_value_single_inv in V1, V3, V5.
    destruct (H_two a ch2) eqn:HH; [|done].
    destruct (M_two c ch4) eqn:HM; [|done].
    destruct (S_two e ch6) eqn:HS; [|done].
    destruct (String.eqb_spec rest EmptyString) as [->|]; [|done].
    destruct (_ <=? 59)%Z eqn:Hsec; [|done]. apply Z.leb_le in Hsec.
    exists a, ch2, c, ch4, e, ch6. rewrite hms_text_chars.
    split; [done|]. split; [by repeat constructor|].
    split; [by repeat constructor|].
    split; [by apply (two_digit_fields a ch2)|].
    split; [by apply (two_digit_fields c ch4)|].
    by eapply S_two_seconds.
  - intros (a & b & c & d & e & f & -> & Ha & Hb & Hh & Hm & Hs).
    apply Forall_cons in Ha as [Ha Hc]. apply Forall_cons in Hc as [Hc He].
    apply Forall_cons in He as [He _].
    apply Forall_cons in Hb as [Hb Hd]. apply Forall_cons in Hd as [Hd Hf].
    apply Forall_cons in Hf as [Hf _].
    rewrite <- hms_text_chars. unfold valid_time.
    rewrite time_pattern_match_chars
      by (repeat constructor; done || by apply is_decimal_single).
    cbn [re_dollar andb].
    pose proof Hb as Vb. pose proof Hd as Vd. pose proof Hf as Vf.
    unfold is_decimal in Vb, Vd, Vf.
    destruct (decimal_value b) as [vb|] eqn:Eb; [|done].
    destruct (decimal_value d) as [vd|] eqn:Ed; [|done].
    destruct (decimal_value f) as [vf|] eqn:Ef; [|done].
    rewrite (strptime_chars _ _ _ _ _ _ _ _ vb _ vd _ vf
               (decimal_value_single a Ha) Eb (decimal_value_single c Hc) Ed
               (decimal_value_single e He) Ef).
    cbn [single].
    rewrite (proj2 (proj1 (two_digit_fields a b Ha Hb)) Hh).
    rewrite (proj2 (proj1 (proj2 (two_digit_fields c d Hc Hd))) Hm).
    rewrite (proj2 (proj2 (two_digit_fields e f He Hf)) Hs).
    cbn [andb String.eqb].
    pose proof (decimal_value_bounds _ _ Ef).
    destruct (Z.leb_spec (10 * digit_val e + vf) 59); [done|lia].
Qed.

(** X2: a time that the live path renders with [strftime("%H:%M:%S")]
    passes the schedule loader's pattern, and [strptime] reads back from
    it the hour, the minute and the second of the wall clock. *)
Theorem strftime_strptime_round_trip (wall : Z) :
  time_pattern_match (strftime_HMS wall) = true
  ∧ strptime_HMS (strftime_HMS wall)
    = Ok (((wall / 3600) mod 24)%Z, ((wall / 60) mod 60)%Z, (wall mod 60)%Z).
Proof.
  pose proof (Z.mod_pos_bound (wall / 3600) 24) as HH.
  pose proof (Z.mod_pos_bound (wall / 60) 60) as HM.
  pose proof (Z.mod_pos_bound wall 60) as HS.
  destruct (pad2_fields ((wall / 3600) mod 24)) as (Ha & Hb & Hh & _ & _ & HH2); [lia|].
  destruct (pad2_fields ((wall / 60) mod 60)) as (Hc & Hd & Hm & HM2 & _); [lia|].
  destruct (pad2_fields (wall mod 60)) as (He & Hf & Hs & _ & HS2 & _); [lia|].
  set (h := ((wall / 3600) mod 24)%Z) in *.
  set (m := ((wall / 60) mod 60)%Z) in *.
  set (s := (wall mod 60)%Z) in *.
  change (strftime_HMS wall)
    with (hms_string (digit_char (h / 10)) (digit_char (h mod 10))
            (digit_char (m / 10)) (digit_char (m mod 10))
            (digit_char (s / 10)) (digit_char (s mod 10)) EmptyString).
  assert (Forall (λ x, is_ascii_digit x = true)
            [digit_char (h / 10); digit_char (h mod 10); digit_char (m / 10);
             digit_char (m mod 10); digit_char (s / 10); digit_char (s mod 10)])
    as Hdigits by (repeat constructor; done).
  rewrite time_pattern_match_hms, strptime_hms_string by done.
  rewrite HH2, HM2, HS2 by lia. cbn [andb String.eqb].
  rewrite Hs. destruct (Z.leb_spec s 59); [|lia].
  split; [done|]. unfold hms_value. by rewrite Hh, Hm, Hs.
Qed.

End AcceptedTimes.

(** ** The schedule loader and resolver *)

Section ScheduleExtras.

Variable routes_dict : gmap string RouteInfo.
Variable trips_dict : gmap string TripInfo.
Variable now : Z.
Variable today_instant : Z → Z.

#[local] Abbreviation load := (load_stop_times routes_dict trips_dict now today_instant).
#[local] Abbreviation same_day := (same_day_entries routes_dict trips_dict now today_instant).
#[local] Abbreviation next_day := (next_day_entries routes_dict trips_dict now today_instant).
#[local] Abbreviation resolver := (get_scheduled_arrivals routes_dict trips_dict now today_instant).

Lemma entries_partition s rows :
  length (same_day s rows) + length (next_day s rows)
  = length (filter (λ row, row_stop_id row = s) rows).
Proof.
  unfold same_day_entries, next_day_entries.
  induction rows as [|row rows IH]; [done|].
  rewrite filter_cons. cbn [omap list_omap].
  repeat case_decide; simpl; try lia; tauto.
Qed.

Lemma next_day_entries_before s rows :
  Forall (λ p, (p.1 < now + one_day)%Z) (next_day s rows).
Proof.
  unfold next_day_entries. induction rows as [|row rows IH]; [done|].
  cbn [omap list_omap]. case_decide as H; [|done].
  constructor; [|done]. simpl. lia.
Qed.

(** X3: the loader stores every accepted row exactly once: the rows of a
    stop that reach the loader are split between the stop's same-day list
    and its next-day list, none is lost and none is stored twice; and
    every instant of a next-day list lies less than one day after
    [now]. *)
Theorem loader_stores_each_row_once (files : list (option (list Row)))
    (s : string) :
  length (default [] ((load files).1 !! s))
  + length (default [] ((load files).2 !! s))
  = length (filter (λ row, row_stop_id row = s) (stored_files files))
  ∧ Forall (λ p, (p.1 < now + one_day)%Z) (default [] ((load files).2 !! s)).
Proof.
  destruct (load_stop_times_lookup routes_dict trips_dict now today_instant files s)
    as [-> ->].
  rewrite !extend_default. simpl.
  split; [apply entries_partition|apply next_day_entries_before].
Qed.

Lemma load_stop_times_stored files1 files2 :
  stored_files files1 = stored_files files2 → load files1 = load files2.
Proof.
  intros Heq.
  destruct (load files1) as [ss1 tb1] eqn:H1, (load files2) as [ss2 tb2] eqn:H2.
  f_equal; apply map_eq; intros s;
    destruct (load_stop_times_lookup routes_dict trips_dict now today_instant
                files1 s) as [Ha Hb];
    destruct (load_stop_times_lookup routes_dict trips_dict now today_instant
                files2 s) as [Hc Hd];
    rewrite H1 in Ha, Hb; rewrite H2 in Hc, Hd; simpl in *; congruence.
Qed.

(** X4: the resolver's table depends on the schedule files only through
    the rows the loader stores: files that do not exist, rows that fail
    the pattern, rows behind a row on which [strptime] raised, and the
    way the rows are spread over the files leave no trace in it. *)
Theorem resolver_depends_on_stored_rows (files1 files2 : list (option (list Row))) :
  stored_files files1 = stored_files files2 →
  resolver files1 = resolver files2.
Proof.
  intros Heq. unfold get_scheduled_arrivals.
  by rewrite (load_stop_times_stored files1 files2 Heq).
Qed.

Lemma items1_take_app_strs {A} (today : list (string * string))
    (buses : list (A * string)) :
  Forall (λ p, ∃ ch, Py.str_item1 p.2 = Ok ch) buses →
  length today + length buses ≤ 5 →
  ∃ chars,
    items1 (take 5 (map (λ p, ETuple p.1 p.2) today
                    ++ map (λ entry, EStr entry.2) buses))
    = Ok (map snd today ++ chars)
    ∧ length chars = length buses.
Proof.
  intros Hbuses Hlen.
  destruct (items1_strs buses Hbuses) as (chars & Hchars & Hl).
  exists chars. split; [|done].
  rewrite take_ge by (rewrite length_app, !length_map; lia).
  by rewrite items1_app, items1_tuples, Hchars.
Qed.

(** The list of a stop with a same-day candidate: the texts of its up to
    5 first same-day candidates in sorted order, then one entry for each
    next-day candidate that still fits. *)
Lemma resolver_list_split (files : list (option (list Row))) (s : string) :
  same_day s (stored_files files) ≠ [] →
  ∃ stop_schedule added,
    resolver files = Ok stop_schedule
    ∧ stop_schedule !! s
      = Some (map snd (take 5 (Py.sorted today_ltb
                                 (same_day s (stored_files files))))
              ++ added)
    ∧ length added
      = (5 - length (same_day s (stored_files files)))
        `min` length (next_day s (stored_files files)).
Proof.
  intros Hsome.
  destruct (get_scheduled_arrivals_lookup routes_dict trips_dict now
              today_instant files) as (sched & Hsched & Hlookup).
  exists sched. specialize (Hlookup s).
  destruct (load_stop_times_lookup routes_dict trips_dict now today_instant files s)
    as [Hss Htb].
  rewrite Hss in Hlookup.
  set (today := same_day s (stored_files files)) in *.
  set (tomorrow := next_day s (stored_files files)) in *.
  assert (extend None today = Some today) as Htoday
    by (destruct today; [done|by simpl]).
  rewrite Htoday in Hlookup. simpl in Hlookup.
  destruct (decide (5 ≤ length today)) as [Hfull|Hfew].
  { rewrite finalize_stop_full in Hlookup by done.
    unfold items1_or_nil in Hlookup. rewrite items1_tuples in Hlookup.
    exists []. split; [done|]. rewrite app_nil_r. split; [done|].
    cbn [length]. lia. }
  set (sorted_today := Py.sorted today_ltb today) in *.
  assert (length sorted_today = length today) as Hlen by apply sorted_length.
  assert (take 5 sorted_today = sorted_today) as Htake by (apply take_ge; lia).
  unfold finalize_stop in Hlookup. fold sorted_today in Hlookup.
  rewrite Htb, Htake, length_map, Hlen in Hlookup. rewrite Htake.
  destruct tomorrow as [|p tomorrow'] eqn:Htomorrow.
  - simpl in Hlookup.
    rewrite take_ge in Hlookup by (rewrite length_map; lia).
    unfold items1_or_nil in Hlookup. rewrite items1_tuples in Hlookup.
    exists []. split; [done|]. rewrite app_nil_r. split; [done|].
    cbn [length]. lia.
  - cbn [extend default app] in Hlookup.
    destruct (decide (length today < 5)) as [_|]; [|lia].
    rewrite <- Htomorrow in *.
    set (buses := take (5 - length today) (Py.sorted tomorrow_ltb tomorrow)) in *.
    assert (length buses = (5 - length today) `min` length tomorrow) as Hb
      by (unfold buses; by rewrite length_take, sorted_length).
    destruct (items1_take_app_strs sorted_today buses) as (chars & Hitems & Hc).
    { unfold buses. apply Forall_take. rewrite sorted_perm.
      apply next_day_entries_item1. }
    { lia. }
    unfold items1_or_nil in Hlookup. rewrite Hitems in Hlookup.
    exists chars. split; [done|]. split; [done|]. by rewrite Hc.
Qed.

(** X5: for a stop with at least one same-day candidate the resolver's
    list has [min 5 (n + m)] entries, where [n] and [m] count the stop's
    same-day and next-day candidates, and it begins with the texts of the
    up to 5 first same-day candidates in sorted order: a next-day entry
    never comes before a same-day one. *)
Theorem same_day_entries_come_first (files : list (option (list Row)))
    (s : string) :
  same_day s (stored_files files) ≠ [] →
  ∃ stop_schedule texts,
    resolver files = Ok stop_schedule
    ∧ stop_schedule !! s = Some texts
    ∧ length texts
      = 5 `min` (length (same_day s (stored_files files))
                 + length (next_day s (stored_files files)))
    ∧ take (5 `min` length (same_day s (stored_files files))) texts
      = map snd (take 5 (Py.sorted today_ltb (same_day s (stored_files files)))).
Proof.
  intros Hsome.
  destruct (resolver_list_split files s Hsome)
    as (sched & added & Hsched & Hs & Hadded).
  exists sched; eexists. split; [done|]. split; [done|].
  assert (length (map snd (take 5 (Py.sorted today_ltb
                                     (same_day s (stored_files files)))))
          = 5 `min` length (same_day s (stored_files files))) as Hfirst
    by (by rewrite length_map, length_take, sorted_length).
  split.
  - rewrite length_app, Hfirst, Hadded. lia.
  - rewrite <- Hfirst. apply take_app_length.
Qed.

(** X14: the schedule resolver never raises, whatever the files and the
    tables hold (the subscript [entry[1]] of line 122 always finds a
    second element or character), and every list of its table has at
    least 1 and at most 5 entries. *)
Theorem resolver_never_raises (files : list (option (list Row))) :
  ∃ stop_schedule,
    resolver files = Ok stop_schedule
    ∧ map_Forall (λ _ texts, 1 ≤ length texts ≤ 5) stop_schedule.
Proof.
  destruct (get_scheduled_arrivals_lookup routes_dict trips_dict now
              today_instant files) as (sched & Hsched & Hlookup).
  exists sched. split; [done|]. intros s texts Hs.
  destruct (decide (same_day s (stored_files files) = [])) as [Hnone|Hsome].
  { by rewrite (get_scheduled_arrivals_no_same_day _ _ _ _ _ _ s Hsched Hnone)
      in Hs. }
  destruct (resolver_list_split files s Hsome)
    as (sched' & added & Hsched' & Hs' & Hadded).
  rewrite Hsched in Hsched'. injection Hsched' as <-.
  rewrite Hs in Hs'. injection Hs' as ->.
  rewrite length_app, length_map, length_take, sorted_length, Hadded.
  destruct (same_day s (stored_files files)); [done|]. cbn [length]. lia.
Qed.

End ScheduleExtras.

(** ** The entity loop *)

Section EntityLoop.

Variable routes_dict : gmap string RouteInfo.
Variable utcoffset : Z → Z.

Lemma fromtimestamp_convertible (t : Z) :
  match fromtimestamp utcoffset t with
  | Ok _ => convertible utcoffset t = true
  | Raise e => e = OverflowError ∨ e = OSError ∨ e = ValueError
  end.
Proof.
  pose proof (fromtimestamp_outcome utcoffset t) as H.
  destruct (fromtimestamp utcoffset t); by destruct H.
Qed.

Lemma arrival_text_outcome stop_time :
  match arrival_text utcoffset stop_time with
  | Ok _ => ∀ t, stu_arrival stop_time = Some t → convertible utcoffset t = true
  | Raise e => ∃ t, stu_arrival stop_time = Some t
                    ∧ fromtimestamp utcoffset t = Raise e
  end.
Proof.
  unfold arrival_text.
  destruct (stu_arrival stop_time) as [t|]; [|done].
  pose proof (fromtimestamp_convertible t) as H.
  destruct (fromtimestamp utcoffset t) as [wall|e] eqn:Hft; simpl.
  - by intros ? [= <-].
  - eauto.
Qed.

Lemma fails_at_app_l (l l' : list Z) (e : exn) :
  fails_at utcoffset l e → fails_at utcoffset (l ++ l') e.
Proof.
  intros (before & t & after & -> & Hbefore & Ht).
  exists before, t, (after ++ l'). by rewrite <- app_assoc.
Qed.

Lemma fails_at_app_r (l l' : list Z) (e : exn) :
  Forall (λ t, convertible utcoffset t = true) l →
  fails_at utcoffset l' e → fails_at utcoffset (l ++ l') e.
Proof.
  intros Hl (before & t & after & -> & Hbefore & Ht).
  exists (l ++ before), t, after. rewrite <- app_assoc.
  split; [done|]. split; [by apply Forall_app|done].
Qed.

Lemma process_stop_times_outcome number name vehicle_id stop_times d :
  match process_stop_times utcoffset number name vehicle_id stop_times d with
  | Ok _ => Forall (λ t, convertible utcoffset t = true)
                   (omap stu_arrival stop_times)
  | Raise e => fails_at utcoffset (omap stu_arrival stop_times) e
  end.
Proof.
  revert d. induction stop_times as [|stop_time rest IH]; intros d;
    [apply Forall_nil_2|].
  cbn [process_stop_times omap list_omap].
  pose proof (arrival_text_outcome stop_time) as Hst.
  destruct (arrival_text utcoffset stop_time) as [text|e]; simpl.
  - specialize (IH (Py.dict_append (stu_stop_id stop_time)
                      (display number name vehicle_id text) d)).
    destruct (process_stop_times _ _ _ _ rest _) as [d'|e];
      destruct (stu_arrival stop_time) as [t|]; try done.
    + constructor; [by apply Hst|done].
    + apply (fails_at_app_r [t]); [|done]. constructor; [by apply Hst|done].
  - destruct Hst as (t & -> & Ht). by exists [], t, (omap stu_arrival rest).
Qed.

(** X6: the entity loop of the live path completes exactly when every
    arrival time of the feed's trip updates converts to a datetime (the
    UTC and the local reading both within the years 1 to 9999).
    Otherwise the arrival times convert, in feed order, up to the first
    one that does not, and the loop raises what [datetime.fromtimestamp]
    raises on that one: [OverflowError], [OSError] or [ValueError],
    whatever the route table and the rest of the feed hold. *)
Theorem entity_loop_outcome (entities : list FeedEntity)
    (trip_updates : gmap string (list string)) :
  match process_entities routes_dict utcoffset entities trip_updates with
  | Ok _ => Forall (λ t, convertible utcoffset t = true) (feed_arrivals entities)
  | Raise e => fails_at utcoffset (feed_arrivals entities) e
               ∧ (e = OverflowError ∨ e = OSError ∨ e = ValueError)
  end.
Proof.
  assert (∀ l e, fails_at utcoffset l e →
                 e = OverflowError ∨ e = OSError ∨ e = ValueError) as Hkind.
  { intros l e (_ & t & _ & _ & _ & Ht).
    pose proof (fromtimestamp_convertible t) as H. by rewrite Ht in H. }
  revert trip_updates.
  induction entities as [|entity entities IH]; intros d;
    [apply Forall_nil_2|].
  cbn [process_entities feed_arrivals flat_map].
  destruct (ent_trip_update entity) as [trip_update|]; [|apply IH].
  pose proof (process_stop_times_outcome (live_route_number routes_dict trip_update)
                (live_route_name routes_dict trip_update)
                (live_vehicle_id trip_update)
                (tu_stop_time_update trip_update) d) as Hst.
  destruct (process_stop_times _ _ _ _ _ d) as [d1|e]; simpl.
  - specialize (IH d1).
    destruct (process_entities routes_dict utcoffset entities d1) as [d2|e].
    + by apply Forall_app.
    + destruct IH as [IH ?]. split; [|done]. by apply fails_at_app_r.
  - split; [by apply fails_at_app_l|]. by eapply Hkind.
Qed.

End EntityLoop.

(** ** The handler on any feed *)

Lemma with_upcoming_wf table stop :
  stop_wf stop → stop_wf (with_upcoming table stop).
Proof.
  intros [s Hs]. exists s. unfold with_upcoming, stop_has_id in *.
  rewrite Hs. by rewrite lookup_insert_ne.
Qed.

(** A later assignment hides an earlier one. *)
Lemma with_upcoming_overwrite table table' stop :
  with_upcoming table (with_upcoming table' stop) = with_upcoming table stop.
Proof.
  unfold with_upcoming.
  destruct (stop !! "stop_id") as [[s| |]|] eqn:Hid; rewrite ?Hid; try done.
  rewrite lookup_insert_ne, Hid by done. apply insert_insert_eq.
Qed.

Lemma assign_upcoming_with table stops :
  Forall stop_wf stops →
  assign_upcoming table stops = (map (with_upcoming table) stops, Ok ()).
Proof. apply assign_upcoming_wf. Qed.

(** The loop stops at the first stop without a [stop_id]. *)
Lemma assign_upcoming_missing_id table good bad rest :
  Forall stop_wf good → bad !! "stop_id" = None →
  assign_upcoming table (good ++ bad :: rest)
  = (map (with_upcoming table) good ++ bad :: rest, Raise KeyError).
Proof.
  intros Hgood Hbad. induction Hgood as [|stop good [s Hs] _ IH]; simpl.
  - unfold stop_item_id. by rewrite Hbad.
  - unfold stop_item_id, with_upcoming. unfold stop_has_id in Hs.
    rewrite Hs. simpl. by rewrite IH.
Qed.

Section HandlerExtras.

Variable routes_dict : gmap string RouteInfo.
Variable trips_dict : gmap string TripInfo.
Variable now : Z.
Variable today_instant : Z → Z.
Variable utcoffset : Z → Z.

#[local] Abbreviation resolver := (get_scheduled_arrivals routes_dict trips_dict now today_instant).
#[local] Abbreviation handler := (bus_stops routes_dict trips_dict now today_instant utcoffset).
#[local] Abbreviation table_of := (request_table routes_dict trips_dict now today_instant utcoffset).

Lemma bus_stops_wf (fetched : result (list FeedEntity))
    (files : list (option (list Row))) (stops : list (gmap string pyval)) :
  Forall stop_wf stops →
  handler fetched files stops
  = (map (with_upcoming (table_of fetched files)) stops,
     Ok (map (with_upcoming (table_of fetched files)) stops)).
Proof.
  intros Hwf. unfold bus_stops, live_block, request_table.
  destruct (entities ← fetched; process_entities routes_dict utcoffset entities ∅)
    as [trip_updates|e].
  - by rewrite assign_upcoming_with.
  - unfold fallback_block.
    destruct (get_scheduled_arrivals_lookup routes_dict trips_dict now
                today_instant files) as (sched & -> & _).
    by rewrite assign_upcoming_with.
Qed.

(** X7: for stops that all have a string [stop_id] the handler always
    answers, whatever fetching, decoding and the entity loop did, and all
    lists of the answer come from one table: the live table when the
    entity loop completed, the schedule table otherwise.  Every stop gets
    the list of its [stop_id] in that table, the empty list when the table
    has none. *)
Theorem bus_stops_answers_from_one_table (fetched : result (list FeedEntity))
    (files : list (option (list Row))) (stops : list (gmap string pyval)) :
  Forall stop_wf stops →
  ∃ table,
    handler fetched files stops
    = (map (with_upcoming table) stops, Ok (map (with_upcoming table) stops))
    ∧ match entities ← fetched; process_entities routes_dict utcoffset entities ∅ with
      | Ok trip_updates => table = trip_updates
      | Raise _ => resolver files = Ok table
      end.
Proof.
  intros Hwf. exists (table_of fetched files).
  split; [by apply bus_stops_wf|].
  unfold request_table.
  destruct (entities ← fetched; process_entities routes_dict utcoffset entities ∅);
    [done|].
  by destruct (get_scheduled_arrivals_lookup routes_dict trips_dict now
                 today_instant files) as (sched & -> & _).
Qed.

(** X9: when some stop has no ["stop_id"] key, every request ends in
    [KeyError], on the live path as on the fallback path: the stops before
    the first such stop are left with their scheduled lists, that stop and
    the stops behind it are left as they were. *)
Theorem bus_stops_missing_stop_id (fetched : result (list FeedEntity))
    (files : list (option (list Row)))
    (good : list (gmap string pyval)) (bad : gmap string pyval)
    (rest : list (gmap string pyval)) :
  Forall stop_wf good → bad !! "stop_id" = None →
  ∃ stop_schedule,
    resolver files = Ok stop_schedule
    ∧ handler fetched files (good ++ bad :: rest)
      = (map (with_upcoming stop_schedule) good ++ bad :: rest, Raise KeyError).
Proof.
  intros Hgood Hbad.
  destruct (get_scheduled_arrivals_lookup routes_dict trips_dict now
              today_instant files) as (sched & Hsched & _).
  exists sched. split; [done|].
  unfold bus_stops, live_block, fallback_block. rewrite Hsched.
  destruct (entities ← fetched; process_entities routes_dict utcoffset entities ∅)
    as [trip_updates|e].
  - rewrite assign_upcoming_missing_id by done.
    rewrite assign_upcoming_missing_id.
    + rewrite map_map. f_equal. f_equal. apply map_ext. intros stop.
      apply with_upcoming_overwrite.
    + apply Forall_map. eapply Forall_impl; [exact Hgood|].
      intros stop. apply with_upcoming_wf.
    + done.
  - by rewrite assign_upcoming_missing_id.
Qed.

(** X10: when the feed cannot be fetched and the schedule files hold no
    row that the loader stores (no file, no row, or only rows it skips),
    the request still answers, and every stop gets the empty list. *)
Theorem no_data_gives_empty_lists (e : exn) (files : list (option (list Row)))
    (stops : list (gmap string pyval)) :
  Forall stop_wf stops → stored_files files = [] →
  handler (Raise e) files stops
  = (map (insert "upcoming_buses" (PList [])) stops,
     Ok (map (insert "upcoming_buses" (PList [])) stops)).
Proof.
  intros Hwf Hnone.
  assert (map (with_upcoming (table_of (Raise e) files)) stops
          = map (insert "upcoming_buses" (PList [])) stops) as Heq.
  { unfold request_table. simpl.
    destruct (get_scheduled_arrivals_lookup routes_dict trips_dict now
                today_instant files) as (sched & Hsched & _).
    rewrite Hsched. clear -Hwf Hnone Hsched.
    induction Hwf as [|stop stops [s Hs] _ IH]; [done|].
    cbn [map]. rewrite IH. f_equal.
    unfold with_upcoming. unfold stop_has_id in Hs. rewrite Hs.
    rewrite (get_scheduled_arrivals_no_same_day _ _ _ _ _ _ s Hsched); [done|].
    by rewrite Hnone. }
  unfold bus_stops, live_block, fallback_block. simpl.
  destruct (get_scheduled_arrivals_lookup routes_dict trips_dict now
              today_instant files) as (sched & Hsched & _).
  rewrite Hsched, assign_upcoming_with by done.
  unfold request_table in Heq. simpl in Heq. rewrite Hsched in Heq.
  by rewrite Heq.
Qed.

End HandlerExtras.

(** X8: a request leaves no trace of the requests before it: on stops
    that all have a string [stop_id], a request that follows any earlier
    request (at another time, with another feed and other files) answers
    what it answers on the stops as they were loaded. *)
Theorem bus_stops_overwrites (routes_dict : gmap string RouteInfo)
    (trips_dict : gmap string TripInfo)
    (now0 now : Z) (today_instant0 today_instant utcoffset0 utcoffset : Z → Z)
    (fetched0 fetched : result (list FeedEntity))
    (files0 files : list (option (list Row)))
    (stops : list (gmap string pyval)) :
  Forall stop_wf stops →
  bus_stops routes_dict trips_dict now today_instant utcoffset fetched files
    (bus_stops routes_dict trips_dict now0 today_instant0 utcoffset0
       fetched0 files0 stops).1
  = bus_stops routes_dict trips_dict now today_instant utcoffset fetched files
      stops.
Proof.
  intros Hwf.
  rewrite (bus_stops_wf routes_dict trips_dict now0 today_instant0 utcoffset0
             fetched0 files0 stops Hwf).
  cbn [fst].
  rewrite !bus_stops_wf; [|done|].
  - rewrite map_map.
    assert (map (λ stop, with_upcoming
                           (request_table routes_dict trips_dict now
                              today_instant utcoffset fetched files)
                           (with_upcoming
                              (request_table routes_dict trips_dict now0
                                 today_instant0 utcoffset0 fetched0 files0)
                              stop)) stops
            = map (with_upcoming (request_table routes_dict trips_dict now
                                    today_instant utcoffset fetched files)) stops)
      as ->; [|done].
    apply map_ext. intros stop. apply with_upcoming_overwrite.
  - apply Forall_map. eapply Forall_impl; [exact Hwf|].
    intros stop. apply with_upcoming_wf.
Qed.

(** ** Loading the catalog *)

Lemma last_with_cons {A} (test : A → bool) (x : A) (l : list A) :
  last_with test (x :: l)
  = match last_with test l with
    | Some y => Some y
    | None => if test x then Some x else None
    end.
Proof.
  unfold last_with. simpl. destruct (test x); [|by destruct (last _)].
  by rewrite last_cons.
Qed.

Lemma build_routes_lookup routes_data d k :
  match build_routes routes_data d with
  | Ok d' =>
      Forall is_Some routes_data
      ∧ d' !! k
        = match last_with (λ route, String.eqb (rj_route_id route) k)
                          (omap id routes_data) with
          | Some route => Some (route_info_of route)
          | None => d !! k
          end
  | Raise e => e = KeyError ∧ ¬ Forall is_Some routes_data
  end.
Proof.
  revert d. induction routes_data as [|[route|] rest IH]; intros d.
  - done.
  - cbn [build_routes omap list_omap id]. rewrite last_with_cons.
    specialize (IH (<[rj_route_id route := route_info_of route]> d)).
    unfold route_info_of in IH at 1.
    destruct (build_routes rest _) as [d'|e].
    + destruct IH as [Hall ->]. split; [by constructor|].
      destruct (last_with _ _); [done|].
      destruct (String.eqb_spec (rj_route_id route) k) as [->|Hne].
      * by rewrite lookup_insert_eq.
      * by rewrite lookup_insert_ne.
    + destruct IH as [-> Hsome]. split; [done|].
      intros [_ H]%Forall_cons. by apply Hsome.
  - simpl. split; [done|]. intros [[? [=]] _]%Forall_cons.
Qed.

Lemma build_trips_lookup trips_data d k :
  match build_trips trips_data d with
  | Ok d' =>
      Forall is_Some trips_data
      ∧ d' !! k
        = match last_with (λ trip, String.eqb (tj_trip_id trip) k)
                          (omap id trips_data) with
          | Some trip => Some (trip_info_of trip)
          | None => d !! k
          end
  | Raise e => e = KeyError ∧ ¬ Forall is_Some trips_data
  end.
Proof.
  revert d. induction trips_data as [|[trip|] rest IH]; intros d.
  - done.
  - cbn [build_trips omap list_omap id]. rewrite last_with_cons.
    specialize (IH (<[tj_trip_id trip := trip_info_of trip]> d)).
    unfold trip_info_of in IH at 1.
    destruct (build_trips rest _) as [d'|e].
    + destruct IH as [Hall ->]. split; [by constructor|].
      destruct (last_with _ _); [done|].
      destruct (String.eqb_spec (tj_trip_id trip) k) as [->|Hne].
      * by rewrite lookup_insert_eq.
      * by rewrite lookup_insert_ne.
    + destruct IH as [-> Hsome]. split; [done|].
      intros [_ H]%Forall_cons. by apply Hsome.
  - simpl. split; [done|]. intros [[? [=]] _]%Forall_cons.
Qed.

(** X11: the route table as the module body loads it.  When the file was
    read and every element has a [route_id], a route id maps to the names
    of the last element with that id, "Unknown" standing in for a missing
    short or long name, and an id of no element is no key.  When the file
    could not be read, or one element lacks its [route_id], the table is
    empty: one bad element loses every route. *)
Theorem routes_dict_lookup (file : result (list (option RouteJson)))
    (k : string) :
  routes_dict_of_file file !! k
  = match file with
    | Ok routes_data =>
        if decide (Forall is_Some routes_data)
        then route_info_of
             <$> last_with (λ route, String.eqb (rj_route_id route) k)
                           (omap id routes_data)
        else None
    | Raise _ => None
    end.
Proof.
  unfold routes_dict_of_file. destruct file as [routes_data|e]; [|done].
  simpl. pose proof (build_routes_lookup routes_data ∅ k) as H.
  destruct (build_routes routes_data ∅) as [d|e].
  - destruct H as [Hall ->]. rewrite decide_True by done.
    by destruct (last_with _ _).
  - destruct H as [_ Hbad]. by rewrite decide_False.
Qed.

(** X12: the trip table as the module body loads it.  When the file was
    read and every element has its three keys, a trip id maps to the route
    id and the headsign of the last element with that id; when the file
    could not be read, or one element lacks a key, the table is empty. *)
Theorem trips_dict_lookup (file : result (list (option TripJson)))
    (k : string) :
  trips_dict_of_file file !! k
  = match file with
    | Ok trips_data =>
        if decide (Forall is_Some trips_data)
        then trip_info_of
             <$> last_with (λ trip, String.eqb (tj_trip_id trip) k)
                           (omap id trips_data)
        else None
    | Raise _ => None
    end.
Proof.
  unfold trips_dict_of_file. destruct file as [trips_data|e]; [|done].
  simpl. pose proof (build_trips_lookup trips_data ∅ k) as H.
  destruct (build_trips trips_data ∅) as [d|e].
  - destruct H as [Hall ->]. rewrite decide_True by done.
    by destruct (last_with _ _).
  - destruct H as [_ Hbad]. by rewrite decide_False.
Qed.

(** The comprehension without the guard is the comprehension of the
    elements. *)
Lemma build_routes_load_routes routes_data d :
  build_routes (Some <$> routes_data) d
  = Ok (foldl (λ d route, <[rj_route_id route := route_info_of route]> d)
              d routes_data).
Proof.
  revert d. induction routes_data as [|route rest IH]; intros d; [done|].
  simpl. apply IH.
Qed.

(** On a file whose elements all have their [route_id] the guarded
    comprehension builds the table of [load_routes]. *)
Lemma routes_dict_of_file_load_routes routes_data :
  routes_dict_of_file (Ok (Some <$> routes_data)) = load_routes routes_data.
Proof.
  unfold routes_dict_of_file. simpl. by rewrite build_routes_load_routes.
Qed.

(** ** [vehicle_positions] *)

Section VehicleExtras.

Variable float : Type.
Variable routes_dict : gmap string RouteInfo.

Lemma vehicle_json_outcome (vehicle : VehiclePosition float) :
  vehicle_json float routes_dict vehicle
  = if decide (on_known_route routes_dict vehicle)
    then Raise KeyError
    else Ok (unknown_route_json vehicle).
Proof.
  unfold on_known_route.
  destruct (decide (is_Some (vp_trip_route_id vehicle ≫= (routes_dict !!.))))
    as [[info H]|Hn]; unfold vehicle_json, vehicle_route_info.
  - rewrite H. unfold dict_item, info_dict.
    by rewrite lookup_insert_ne, lookup_singleton_ne.
  - destruct (vp_trip_route_id vehicle ≫= (routes_dict !!.)) as [info|];
      [destruct Hn; eauto|].
    unfold dict_item, vehicle_default_info. rewrite lookup_insert_eq.
    by rewrite lookup_insert_ne, lookup_singleton_eq.
Qed.

Lemma collect_vehicles_outcome (entities : list (VehicleEntity float))
    (vehicles : list (VehicleJson float)) :
  collect_vehicles float routes_dict entities vehicles
  = if decide (Exists (on_known_route routes_dict) (feed_vehicles entities))
    then Raise KeyError
    else Ok (vehicles ++ map unknown_route_json (feed_vehicles entities)).
Proof.
  revert vehicles. unfold feed_vehicles.
  induction entities as [|entity entities IH]; intros vehicles.
  - cbn [collect_vehicles omap list_omap].
    destruct (decide (Exists (on_known_route routes_dict) [])) as [H|_];
      [by apply Exists_nil in H|].
    by rewrite app_nil_r.
  - cbn [collect_vehicles omap list_omap].
    destruct (ent_vehicle entity) as [vehicle|]; [|apply IH].
    rewrite vehicle_json_outcome.
    destruct (decide (on_known_route routes_dict vehicle)) as [Hk|Hk].
    + destruct (decide (Exists _ (vehicle :: _))) as [_|Hn]; [done|].
      destruct Hn. by apply Exists_cons_hd.
    + cbn [mbind result_bind]. rewrite IH.
      destruct (decide (Exists _ (omap ent_vehicle entities))) as [He|He];
        destruct (decide (Exists _ (vehicle :: _))) as [Hc|Hc].
      * done.
      * destruct Hc. by apply Exists_cons_tl.
      * apply Exists_cons in Hc as [?|?]; done.
      * cbn [map]. by rewrite <- app_assoc.
Qed.

(** X13: [vehicle_positions] on a feed that was fetched and decoded.  The
    route names are read under keys that no value of the route table has,
    so one vehicle on a route that the table knows makes the handler raise
    [KeyError], which the handler does not catch.  Otherwise the answer
    lists the vehicle messages of the feed in feed order, every one with
    the route number and route name "Unknown".  Of the exceptions of
    fetching and decoding only [RequestException] becomes the error body
    with status 500; any other escapes. *)
Theorem vehicle_positions_outcome (fetched : result (list (VehicleEntity float))) :
  vehicle_positions float routes_dict fetched
  = match fetched with
    | Ok entities =>
        if decide (Exists (on_known_route routes_dict) (feed_vehicles entities))
        then Raise KeyError
        else Ok (VehiclesBody (map unknown_route_json (feed_vehicles entities)))
    | Raise RequestException => Ok (ErrorBody RequestException 500)
    | Raise e => Raise e
    end.
Proof.
  unfold vehicle_positions. destruct fetched as [entities|e]; [|done].
  simpl. rewrite collect_vehicles_outcome.
  by destruct (decide _).
Qed.

End VehicleExtras.

(** ** Stops with a number as [stop_id] *)

Lemma assign_upcoming_hashable table stops :
  Forall stop_hashable stops →
  ∃ stops',
    assign_upcoming table stops = (stops', Ok ())
    ∧ Forall2 (λ stop stop',
                 ∀ n, stop !! "stop_id" = Some (PNum n) →
                      stop' = <["upcoming_buses" := PList []]> stop)
              stops stops'.
Proof.
  induction 1 as [|stop stops Hstop _ (stops' & IH & Hall)].
  - exists []. split; [done|constructor].
  - unfold stop_hashable in Hstop. simpl. unfold stop_item_id.
    destruct (stop !! "stop_id") as [[s|n|l]|] eqn:Hid; try done; simpl;
      rewrite IH; eexists; (split; [done|]); constructor; try done;
      rewrite Hid; by intros n' [= <-].
Qed.

(** X15: the table a request serves from has strings as keys, so a stop
    whose [stop_id] is a number never finds a list: when every stop has a
    string or a number as [stop_id] the handler answers, and every stop
    with a number gets the empty list, whatever the feed and the schedule
    hold for that number written as a string. *)
Theorem numeric_stop_id_gets_empty_list (routes_dict : gmap string RouteInfo)
    (trips_dict : gmap string TripInfo) (now : Z)
    (today_instant utcoffset : Z → Z) (fetched : result (list FeedEntity))
    (files : list (option (list Row))) (stops : list (gmap string pyval)) :
  Forall stop_hashable stops →
  ∃ stops',
    bus_stops routes_dict trips_dict now today_instant utcoffset fetched files
      stops = (stops', Ok stops')
    ∧ Forall2 (λ stop stop',
                 ∀ n, stop !! "stop_id" = Some (PNum n) →
                      stop' = <["upcoming_buses" := PList []]> stop)
              stops stops'.
Proof.
  intros Hstops. unfold bus_stops, live_block, fallback_block.
  destruct (entities ← fetched; process_entities routes_dict utcoffset entities ∅)
    as [trip_updates|e].
  - destruct (assign_upcoming_hashable trip_updates stops Hstops)
      as (stops' & -> & H).
    by exists stops'.
  - destruct (get_scheduled_arrivals_lookup routes_dict trips_dict now
                today_instant files) as (sched & -> & _).
    destruct (assign_upcoming_hashable sched stops Hstops) as (stops' & -> & H).
    by exists stops'.
Qed.

(** ** The further properties on sample data *)

Section SamplesMore.
Import Sample SampleMore.

Lemma resolver_depends_on_stored_rows_witness :
  stored_files files_with_gaps = stored_files files_plain
  ∧ get_scheduled_arrivals routes_dict trips_dict (clock 9 0) today_instant
      files_with_gaps
    = get_scheduled_arrivals routes_dict trips_dict (clock 9 0) today_instant
        files_plain.
Proof.
  assert (stored_files files_with_gaps = stored_files files_plain) as Heq
    by reflexivity.
  split; [exact Heq|].
  exact (resolver_depends_on_stored_rows routes_dict trips_dict (clock 9 0)
           today_instant files_with_gaps files_plain Heq).
Defined.

Lemma same_day_entries_come_first_witness :
  same_day_entries routes_dict trips_dict (clock 9 0) today_instant "S"
    (stored_files files) ≠ []
  ∧ ∃ stop_schedule texts,
      get_scheduled_arrivals routes_dict trips_dict (clock 9 0) today_instant files
      = Ok stop_schedule
      ∧ stop_schedule !! "S" = Some texts
      ∧ length texts
        = 5 `min` (length (same_day_entries routes_dict trips_dict (clock 9 0)
                             today_instant "S" (stored_files files))
                   + length (next_day_entries routes_dict trips_dict (clock 9 0)
                               today_instant "S" (stored_files files)))
      ∧ take (5 `min` length (same_day_entries routes_dict trips_dict (clock 9 0)
                                today_instant "S" (stored_files files))) texts
        = map snd (take 5 (Py.sorted today_ltb
                             (same_day_entries routes_dict trips_dict (clock 9 0)
                                today_instant "S" (stored_files files)))).
Proof.
  assert (same_day_entries routes_dict trips_dict (clock 9 0) today_instant "S"
            (stored_files files) ≠ []) as Hsome
    by (vm_compute; discriminate).
  split; [exact Hsome|].
  exact (same_day_entries_come_first routes_dict trips_dict (clock 9 0)
           today_instant files "S" Hsome).
Defined.

Lemma bus_stops_answers_from_one_table_witness :
  Forall stop_wf stops
  ∧ ∃ table,
      bus_stops routes_dict trips_dict (clock 9 0) today_instant utcoffset
        (Ok feed_far) files stops
      = (map (with_upcoming table) stops, Ok (map (with_upcoming table) stops))
      ∧ match entities ← Ok feed_far;
              process_entities routes_dict utcoffset entities ∅ with
        | Ok trip_updates => table = trip_updates
        | Raise _ =>
            get_scheduled_arrivals routes_dict trips_dict (clock 9 0)
              today_instant files = Ok table
        end.
Proof.
  assert (Forall stop_wf stops) as Hwf
    by (repeat constructor; eexists; reflexivity).
  split; [exact Hwf|].
  exact (bus_stops_answers_from_one_table routes_dict trips_dict (clock 9 0)
           today_instant utcoffset (Ok feed_far) files stops Hwf).
Defined.

Lemma bus_stops_overwrites_witness :
  Forall stop_wf stops
  ∧ bus_stops routes_dict trips_dict (clock 9 0) today_instant utcoffset
      (Raise RequestException) files
      (bus_stops routes_dict trips_dict (clock 8 0) today_instant utcoffset
         (Ok feed_six) files_plain stops).1
    = bus_stops routes_dict trips_dict (clock 9 0) today_instant utcoffset
        (Raise RequestException) files stops.
Proof.
  assert (Forall stop_wf stops) as Hwf
    by (repeat constructor; eexists; reflexivity).
  split; [exact Hwf|].
  exact (bus_stops_overwrites routes_dict trips_dict (clock 8 0) (clock 9 0)
           today_instant today_instant utcoffset utcoffset (Ok feed_six)
           (Raise RequestException) files_plain files stops Hwf).
Defined.

Lemma bus_stops_missing_stop_id_witness :
  Forall stop_wf [stop "S" "Square"]
  ∧ nameless_stop !! "stop_id" = None
  ∧ ∃ stop_schedule,
      get_scheduled_arrivals routes_dict trips_dict (clock 9 0) today_instant files
      = Ok stop_schedule
      ∧ bus_stops routes_dict trips_dict (clock 9 0) today_instant utcoffset
          (Ok feed) files ([stop "S" "Square"] ++ nameless_stop :: [stop "Q" "Quay"])
        = (map (with_upcoming stop_schedule) [stop "S" "Square"]
           ++ nameless_stop :: [stop "Q" "Quay"], Raise KeyError).
Proof.
  assert (Forall stop_wf [stop "S" "Square"]) as Hwf
    by (repeat constructor; eexists; reflexivity).
  assert (nameless_stop !! "stop_id" = None) as Hbad by reflexivity.
  split; [exact Hwf|]. split; [exact Hbad|].
  exact (bus_stops_missing_stop_id routes_dict trips_dict (clock 9 0)
           today_instant utcoffset (Ok feed) files [stop "S" "Square"]
           nameless_stop [stop "Q" "Quay"] Hwf Hbad).
Defined.

Lemma no_data_gives_empty_lists_witness :
  Forall stop_wf stops
  ∧ stored_files files_skipped = []
  ∧ bus_stops routes_dict trips_dict (clock 9 0) today_instant utcoffset
      (Raise DecodeError) files_skipped stops
    = (map (insert "upcoming_buses" (PList [])) stops,
       Ok (map (insert "upcoming_buses" (PList [])) stops)).
Proof.
  assert (Forall stop_wf stops) as Hwf
    by (repeat constructor; eexists; reflexivity).
  assert (stored_files files_skipped = []) as Hnone by reflexivity.
  split; [exact Hwf|]. split; [exact Hnone|].
  exact (no_data_gives_empty_lists routes_dict trips_dict (clock 9 0)
           today_instant utcoffset DecodeError files_skipped stops Hwf Hnone).
Defined.

Lemma numeric_stop_id_gets_empty_list_witness :
  Forall stop_hashable [numbered_stop; stop "S" "Square"]
  ∧ ∃ stops',
      bus_stops routes_dict trips_dict (clock 9 0) today_instant utcoffset
        (Ok feed) files [numbered_stop; stop "S" "Square"] = (stops', Ok stops')
      ∧ Forall2 (λ stop stop',
                   ∀ n, stop !! "stop_id" = Some (PNum n) →
                        stop' = <["upcoming_buses" := PList []]> stop)
                [numbered_stop; stop "S" "Square"] stops'.
Proof.
  assert (Forall stop_hashable [numbered_stop; stop "S" "Square"]) as Hh
    by (repeat constructor).
  split; [exact Hh|].
  exact (numeric_stop_id_gets_empty_list routes_dict trips_dict (clock 9 0)
           today_instant utcoffset (Ok feed) files
           [numbered_stop; stop "S" "Square"] Hh).
Defined.

(** Times with digits beyond ASCII: accepted in the second place of a
    field, with the value of the digit; refused in the first place, and
    behind a first [2] of the hour. *)
Lemma times_beyond_ascii :
  TimeOfDay.strptime_HMS ("1" +:+ arabic_two +:+ ":3" +:+ struck_zero
                            +:+ ":0" +:+ arabic_nine)
  = Ok (12%Z, 30%Z, 9%Z)
  ∧ valid_time ("1" +:+ arabic_two +:+ ":3" +:+ struck_zero
                  +:+ ":0" +:+ arabic_nine) = true
  ∧ TimeOfDay.time_pattern_match (arabic_one +:+ arabic_two +:+ ":00:00") = true
  ∧ TimeOfDay.strptime_HMS (arabic_one +:+ arabic_two +:+ ":00:00")
    = Raise ValueError
  ∧ TimeOfDay.time_pattern_match ("2" +:+ arabic_three +:+ ":00:00") = true
  ∧ TimeOfDay.strptime_HMS ("2" +:+ arabic_three +:+ ":00:00") = Raise ValueError
  ∧ Py.str_item1 ("1" +:+ arabic_two +:+ ":00:00") = Ok arabic_two.
Proof. repeat split; vm_compute; reflexivity. Qed.

(** What [datetime.fromtimestamp] raises, two hours east of UTC: beyond
    [gmtime], beyond the year 9999, and within the last two hours of that
    year. *)
Lemma fromtimestamp_failures :
  fromtimestamp utcoffset (10 ^ 18) = Raise OSError
  ∧ fromtimestamp utcoffset 253402300800 = Raise ValueError
  ∧ fromtimestamp utcoffset 253402293600 = Raise OverflowError
  ∧ fromtimestamp utcoffset 253402293599 = Ok 253402300799%Z.
Proof. repeat split; vm_compute; reflexivity. Qed.

End SamplesMore.
